(** * GraphiteEngine: the WebGPU renderer, the mesh buffer cache and the actor registry

    A shallow embedding of
    - [src/Engine/Classes/Render/WebGPURender.ts]  (class [WebGPURenderer]),
    - [src/src/classes/engine/Math/Vector3.ts]     (classes [Vector3] and [WebGPUMesh]),
    - [src/src/classes/engine/Entity/Actor.ts]     (class [Actor]),
    - [src/Engine/Classes/Utils/FileReader.ts]     (class [FileReader]).

    JavaScript objects are identified by a reference (a natural number); the
    mutable objects the code shares (meshes) live in a store indexed by these
    references.  The GPU device is modelled by the chronological list of the
    API calls issued on it, each call that creates an object returning a fresh
    handle.  Code that can [throw] runs in a state-and-exception monad.  The
    construction and set-up of the renderer also call the host (canvases, the
    window, the adapter and device requests): they run on a host state that
    records those calls together with the GPU calls. *)

From Stdlib Require Import String.
From Stdlib Require Import List Bool Arith Lia ZArith QArith Lqa.
Import ListNotations.

Set Implicit Arguments.

(** ** Values *)

(** Identity of a JavaScript object. *)
Definition ref := nat.

(** Identity of a GPU object ([GPUDevice], [GPUBuffer], [GPUTextureView], ...). *)
Definition handle := nat.

Bind Scope nat_scope with ref handle.

(** A JavaScript [number].  The code under study only stores numbers, copies
    them and divides an array length by eight: every value is a rational kept
    in lowest terms. *)
Definition number := Q.

(** [a / b] on numbers. *)
Definition js_div (a b : number) : number := Qred (a / b).

(** [x || 0.0]: a falsy number is replaced by [0.0]. *)
Definition or_zero (x : number) : number := if Qeq_bool x 0 then 0%Q else x.

(** A [Float32Array], by its elements; each element takes four bytes. *)
Definition Float32Array := list number.

Definition byteLength (tf : Float32Array) : nat := 4 * length tf.

(** [new Float32Array(t)]. *)
Definition Float32Array_from (t : list number) : Float32Array := t.

(** ** Vector3 *)

Record Vector3 := mkVector3 { x : number; y : number; z : number }.

(** [new Vector3(x, y, z)]. *)
Definition Vector3_new (x0 y0 z0 : number) : Vector3 :=
  {| x := or_zero x0; y := or_zero y0; z := or_zero z0 |}.

Definition toArray (v : Vector3) : list number := [x v; y v; z v].

(** ** Vertex *)

(** Modelled from the spec: [Render/Vertex.js] is not among the sources.  A
    vertex carries a position (3 floats), a uv (2 floats) and a normal
    (3 floats); [getPosition], [getUV] and [getNormal] give them as iterables
    of numbers. *)
Record Vertex := mkVertex {
  position : Vector3;
  uv : number * number;
  normal : Vector3
}.

Definition getPosition (v : Vertex) : list number := toArray (position v).
Definition getUV (v : Vertex) : list number := [fst (uv v); snd (uv v)].
Definition getNormal (v : Vertex) : list number := toArray (normal v).

(** ** The GPU, as the calls made on it *)

Definition GPUBufferUsage_COPY_DST : Z := 8.
Definition GPUBufferUsage_VERTEX : Z := 32.
Definition GPUBufferUsage_UNIFORM : Z := 64.

Record GPUColor := { r : number; g : number; b : number; a : number }.

Inductive GPULoadOp := LoadOp_load | LoadOp_clear.
Inductive GPUStoreOp := StoreOp_store | StoreOp_discard.

Record GPURenderPassColorAttachment := {
  view : handle;
  clearValue : GPUColor;
  loadOp : GPULoadOp;
  storeOp : GPUStoreOp
}.

Record GPURenderPassDepthStencilAttachment := {
  depth_view : handle;
  depthClearValue : number;
  depthLoadOp : GPULoadOp;
  depthStoreOp : GPUStoreOp
}.

Record GPURenderPassDescriptor := {
  colorAttachments : list GPURenderPassColorAttachment;
  depthStencilAttachment : GPURenderPassDepthStencilAttachment
}.

(** What the code hands to the bind-group builder.  The TypeScript type is
    [GPUBuffer | GPUTexture | GPUSampler]; types are erased at run time and
    [instanceof] is evaluated on whatever object arrives, hence the fourth
    case. *)
Inductive Resource :=
| IsGPUBuffer (h : handle)
| IsGPUTexture (h : handle)
| IsGPUSampler (h : handle)
| IsOtherObject (o : ref).

(** A [GPUBindingResource] as built by the code. *)
Inductive GPUBindingResource :=
| BufferBinding (buffer : handle)        (* [{buffer: entry}] *)
| TextureView (v : handle)               (* [entry.createView()] *)
| PassedThrough (entry : Resource).      (* [entry] itself *)

Record GPUBindGroupEntry := {
  binding : nat;
  resource : GPUBindingResource
}.

Inductive GPUCall :=
| CreateCommandEncoder (device enc : handle)
| GetCurrentTexture (context tex : handle)
| CreateView (tex v : handle)
| BeginRenderPass (enc : handle) (desc : GPURenderPassDescriptor) (pass : handle)
| CreateBuffer (device : handle) (size : nat) (usage : Z) (buf : handle)
| WriteBuffer (device buf : handle) (offset : nat) (data : Float32Array)
| GetBindGroupLayout (pipeline : handle) (index : nat) (layout : handle)
| CreateBindGroup (device layout : handle) (entries : list GPUBindGroupEntry) (bg : handle)
| SetPipeline (pass pipeline : handle)
| SetVertexBuffer (pass : handle) (slot : nat) (buf : handle)
| SetBindGroup (pass : handle) (index : nat) (bg : handle)
| Draw (pass : handle) (vertexCount : number)
| EndPass (pass : handle)
| Finish (enc cmd : handle)
| Submit (device : handle) (cmds : list handle).

(** ** WebGPUMesh objects and the world *)

Record WebGPUMesh := mkMesh {
  vertices : list number;           (* POSITION, UV, NORMAL *)
  vertexBuffer : option handle      (* [GPUBuffer | null] *)
}.

Record World := mkWorld {
  nextId : nat;                     (* next fresh identity *)
  calls : list GPUCall;             (* GPU calls so far, oldest first *)
  meshes : ref -> WebGPUMesh        (* the mesh objects *)
}.

(** ** State and exceptions *)

Inductive outcome (A : Type) :=
| Returned (v : A) (w : World)
| Thrown (msg : string) (w : World).

Arguments Thrown {A} msg w.

Definition M (A : Type) := World -> outcome A.

Definition ret {A} (v : A) : M A := fun w => Returned v w.

Definition throw {A} (msg : string) : M A := fun w => Thrown msg w.

Definition bind {A B} (m : M A) (k : A -> M B) : M B :=
  fun w => match m w with
           | Returned v w' => k v w'
           | Thrown msg w' => Thrown msg w'
           end.

Notation "x <- m ;; k" := (bind m (fun x => k))
  (at level 61, m at next level, right associativity).
Notation "m ;;; k" := (bind m (fun _ => k))
  (at level 61, right associativity).


(** A fresh identity. *)
Definition fresh : M nat :=
  fun w => Returned (nextId w)
             {| nextId := S (nextId w); calls := calls w; meshes := meshes w |}.

(** Record one GPU call. *)
Definition emit (c : GPUCall) : M unit :=
  fun w => Returned tt
             {| nextId := nextId w; calls := calls w ++ [c]; meshes := meshes w |}.

Definition readMesh (this : ref) : M WebGPUMesh :=
  fun w => Returned (meshes w this) w.

Definition writeMesh (this : ref) (m : WebGPUMesh) : M unit :=
  fun w => Returned tt
             {| nextId := nextId w; calls := calls w;
                meshes := fun r' => if Nat.eqb r' this then m else meshes w r' |}.

(** [for (let x of xs) body(x)]. *)
Fixpoint forOf {A} (xs : list A) (body : A -> M unit) : M unit :=
  match xs with
  | [] => ret tt
  | x0 :: xs' => body x0 ;;; forOf xs' body
  end.

(** ** The GPU API used by the code *)

Definition createCommandEncoder (device : handle) : M handle :=
  enc <- fresh ;; emit (CreateCommandEncoder device enc) ;;; ret enc.

Definition getCurrentTexture (context : handle) : M handle :=
  tex <- fresh ;; emit (GetCurrentTexture context tex) ;;; ret tex.

Definition createView (tex : handle) : M handle :=
  v <- fresh ;; emit (CreateView tex v) ;;; ret v.

Definition beginRenderPass (enc : handle) (desc : GPURenderPassDescriptor) : M handle :=
  pass <- fresh ;; emit (BeginRenderPass enc desc pass) ;;; ret pass.

Definition createBuffer (device : handle) (size : nat) (usage : Z) : M handle :=
  buf <- fresh ;; emit (CreateBuffer device size usage buf) ;;; ret buf.

Definition writeBuffer (device buf : handle) (offset : nat) (data : Float32Array) : M unit :=
  emit (WriteBuffer device buf offset data).

Definition getBindGroupLayout (pipeline : handle) (index : nat) : M handle :=
  layout <- fresh ;; emit (GetBindGroupLayout pipeline index layout) ;;; ret layout.

Definition createBindGroup (device layout : handle) (entries : list GPUBindGroupEntry)
  : M handle :=
  bg <- fresh ;; emit (CreateBindGroup device layout entries bg) ;;; ret bg.

Definition finish (enc : handle) : M handle :=
  cmd <- fresh ;; emit (Finish enc cmd) ;;; ret cmd.

(** ** class WebGPUMesh *)

(** [new WebGPUMesh()]. *)
Definition WebGPUMesh_new : M ref :=
  this <- fresh ;;
  writeMesh this {| vertices := []; vertexBuffer := None |} ;;;
  ret this.

Definition generateVertexBuffer (this : ref) (device : handle) (t : list number)
  : M handle :=
  let tf := Float32Array_from t in
  buffer <- createBuffer device (byteLength tf)
              (Z.lor GPUBufferUsage_VERTEX GPUBufferUsage_COPY_DST) ;;
  writeBuffer device buffer 0 tf ;;;
  m <- readMesh this ;;
  writeMesh this {| vertices := vertices m; vertexBuffer := Some buffer |} ;;;
  ret buffer.

Definition getVertexBuffer (this : ref) (device : handle) : M handle :=
  m <- readMesh this ;;
  match vertexBuffer m with
  | Some vb => ret vb
  | None => generateVertexBuffer this device (vertices m)
  end.

(** [this.vertices.push(...xs)]. *)
Definition push (this : ref) (xs : list number) : M unit :=
  m <- readMesh this ;;
  writeMesh this {| vertices := vertices m ++ xs; vertexBuffer := vertexBuffer m |}.


Definition addVertex (this : ref) (vertex : list Vertex) : M unit :=
  forOf vertex (fun vert =>
    push this (getPosition vert) ;;;
    push this (getUV vert) ;;;
    push this (getNormal vert)).

Definition setVertices (this : ref) (vs : list number) : M unit :=
  m <- readMesh this ;;
  writeMesh this {| vertices := vs; vertexBuffer := vertexBuffer m |}.

Definition getVertices (this : ref) : M (list number) :=
  m <- readMesh this ;; ret (vertices m).


(** ** Collaborators of the renderer *)

(** Modelled from the spec: [Render/RenderingCanvas.js] is not among the
    sources.  A rendering canvas is a drawable surface bound to a visual
    element that is either displayed or hidden; [displayCanvas] makes it
    visible and [hideCanvas] makes it invisible. *)
Record RenderingCanvas := mkCanvas {
  canvas : handle;                  (* what [getCanvas()] returns *)
  visible : bool
}.

Definition displayCanvas (c : RenderingCanvas) : RenderingCanvas :=
  {| canvas := canvas c; visible := true |}.

Definition hideCanvas (c : RenderingCanvas) : RenderingCanvas :=
  {| canvas := canvas c; visible := false |}.

(** What the renderer reads from the objects it is given.  [Actor], its
    [Material] and [Transform], and [WebGPUCamera] are reached through their
    getters only; the getters are taken as they are, by the reference of the
    object they are called on.  A camera is an object like any actor and is
    compared with actors by identity.  The getters are taken to return (not
    to throw) and to make no GPU call that matters to a frame. *)
Record Scene := mkScene {
  getMesh : ref -> ref;                               (* [actor.getMesh()] *)
  getRenderPipeline : ref -> handle;                  (* [actor.getMaterial().getRenderPipeline(renderer)] *)
  getTransformationMatrix : ref -> Float32Array;      (* [actor.getTransform().getTransformationMatrix()] *)
  getRotationMatrix : ref -> Float32Array;            (* [actor.getTransform().getRotationMatrix()] *)
  getViewTransformationMatrix : ref -> Float32Array;  (* [camera.getTransform().getViewTransformationMatrix()] *)
  getProjectionBuffer : ref -> handle                 (* [camera.getProjectionBuffer(device)] *)
}.

(** ** class WebGPURenderer *)

Inductive GPUPrimitiveTopology :=
| point_list | line_list | line_strip | triangle_list | triangle_strip.

Record WebGPURenderer := mkRenderer {
  usePostProcessing : bool;
  renderingCanvas : RenderingCanvas;
  postProcessingRenderingCanvas : RenderingCanvas;
  gpu : handle;
  adapter : option handle;
  device : option handle;
  context : option handle;
  postProcessingContext : option handle;
  postProcessingPipeline : option handle;
  depthView : option handle;
  quadMesh : ref;
  sampler : option handle;
  primitiveTopology : GPUPrimitiveTopology
}.

(** The renderer is Ready when [render] passes its guard. *)
Definition isReady (rd : WebGPURenderer) : bool :=
  match device rd, context rd, depthView rd with
  | Some _, Some _, Some _ => true
  | _, _, _ => false
  end.

Definition getDevice (rd : WebGPURenderer) : M handle :=
  match device rd with
  | None => throw "Error: Device not found"
  | Some d => ret d
  end.

Definition toUniformGPUBuffer (device : handle) (iterable : Float32Array) : M handle :=
  buffer <- createBuffer device (byteLength iterable)
              (Z.lor GPUBufferUsage_UNIFORM GPUBufferUsage_COPY_DST) ;;
  writeBuffer device buffer 0 iterable ;;;
  ret buffer.

Definition getTextureView (context : handle) : M handle :=
  tex <- getCurrentTexture context ;; createView tex.

Definition renderPassDescriptor (v depthView : handle) : GPURenderPassDescriptor :=
  {| colorAttachments :=
       [ {| view := v;
            clearValue := {| r := 9 # 100; g := 9 # 100; b := 9 # 100; a := 1 |};
            loadOp := LoadOp_clear;
            storeOp := StoreOp_store |} ];
     depthStencilAttachment :=
       {| depth_view := depthView;
          depthClearValue := 1;
          depthLoadOp := LoadOp_clear;
          depthStoreOp := StoreOp_store |} |}.

Definition getPassEncoder (commandEncoder v depthView : handle) : M handle :=
  beginRenderPass commandEncoder (renderPassDescriptor v depthView).

Definition getBindGroupEntryResource (entry : Resource) : M GPUBindingResource :=
  match entry with
  | IsGPUBuffer h => ret (BufferBinding h)
  | IsGPUTexture t => v <- createView t ;; ret (TextureView v)
  | _ => ret (PassedThrough entry)
  end.

(** The loop of [setupUniformBindGroup]: [i] is the loop index, [rest] is
    [buffers] from index [i] on, [entries] the array being filled. *)
Fixpoint pushEntries (i : nat) (rest : list Resource) (entries : list GPUBindGroupEntry)
  : M (list GPUBindGroupEntry) :=
  match rest with
  | [] => ret entries
  | entry :: rest' =>
      res <- getBindGroupEntryResource entry ;;
      pushEntries (S i) rest' (entries ++ [ {| binding := i; resource := res |} ])
  end.

Definition setupUniformBindGroup (device pipeline : handle) (bindingIndex : nat)
    (buffers : list Resource) : M handle :=
  entries <- pushEntries 0 buffers [] ;;
  layout <- getBindGroupLayout pipeline bindingIndex ;;
  createBindGroup device layout entries.

Definition draw (passEncoder pipeline : handle) (mesh : ref) (vertexBuffer : handle)
    (uniformBindingGroups : list handle) : M unit :=
  emit (SetPipeline passEncoder pipeline) ;;;
  emit (SetVertexBuffer passEncoder 0 vertexBuffer) ;;;
  forOf uniformBindingGroups (fun bg => emit (SetBindGroup passEncoder 0 bg)) ;;;
  vs <- getVertices mesh ;;
  emit (Draw passEncoder (js_div (inject_Z (Z.of_nat (length vs))) (3 + 2 + 3))).

Definition getActorPipeline (sc : Scene) (actor : ref) : handle :=
  getRenderPipeline sc actor.

Definition renderActor (sc : Scene) (actor camera : ref) (passEncoder device : handle)
  : M unit :=
  let pipeline := getActorPipeline sc actor in
  vertexBuffer <- getVertexBuffer (getMesh sc actor) device ;;
  mActorBuffer <- toUniformGPUBuffer device (getTransformationMatrix sc actor) ;;
  mViewBuffer <- toUniformGPUBuffer device (getViewTransformationMatrix sc camera) ;;
  let mProjBuffer := getProjectionBuffer sc camera in
  mActorRotBuffer <- toUniformGPUBuffer device (getRotationMatrix sc actor) ;;
  uniformBindingGroup <-
    setupUniformBindGroup device pipeline 0
      [IsGPUBuffer mActorBuffer; IsGPUBuffer mViewBuffer;
       IsGPUBuffer mProjBuffer; IsGPUBuffer mActorRotBuffer] ;;
  draw passEncoder pipeline (getMesh sc actor) vertexBuffer [uniformBindingGroup].

Definition render (sc : Scene) (rd : WebGPURenderer) (actors : list ref) (camera : ref)
  : M unit :=
  match device rd, context rd, depthView rd with
  | Some device, Some context, Some depthView =>
      commandEncoder <- createCommandEncoder device ;;
      v <- getTextureView context ;;
      passEncoder <- getPassEncoder commandEncoder v depthView ;;
      forOf actors (fun actor =>
        if negb (Nat.eqb actor camera)
        then renderActor sc actor camera passEncoder device
        else ret tt) ;;;
      emit (EndPass passEncoder) ;;;
      cmd <- finish commandEncoder ;;
      emit (Submit device [cmd])
  | _, _, _ => ret tt
  end.

Definition renderPostProcessing (rd : WebGPURenderer) (device context depthView pipeline : handle)
    (frameTexture sampler : handle) : M unit :=
  commandEncoder <- createCommandEncoder device ;;
  v <- getTextureView context ;;
  passEncoder <- getPassEncoder commandEncoder v depthView ;;
  uniformBindingGroup <-
    setupUniformBindGroup device pipeline 0 [IsGPUTexture frameTexture; IsGPUSampler sampler] ;;
  vertexBuffer <- getVertexBuffer (quadMesh rd) device ;;
  draw passEncoder pipeline (quadMesh rd) vertexBuffer [uniformBindingGroup] ;;;
  emit (EndPass passEncoder) ;;;
  cmd <- finish commandEncoder ;;
  emit (Submit device [cmd]).

Definition setUsePostProcessing (use : bool) (rd : WebGPURenderer) : WebGPURenderer :=
  {| usePostProcessing := use;
     renderingCanvas :=
       if use then hideCanvas (renderingCanvas rd) else displayCanvas (renderingCanvas rd);
     postProcessingRenderingCanvas :=
       if use then displayCanvas (postProcessingRenderingCanvas rd)
       else hideCanvas (postProcessingRenderingCanvas rd);
     gpu := gpu rd;
     adapter := adapter rd;
     device := device rd;
     context := context rd;
     postProcessingContext := postProcessingContext rd;
     postProcessingPipeline := postProcessingPipeline rd;
     depthView := depthView rd;
     quadMesh := quadMesh rd;
     sampler := sampler rd;
     primitiveTopology := primitiveTopology rd |}.

(** The quad used for post-processing.  [new Vertex(position)] leaves uv and
    normal to the constructor's defaults, which are parameters here. *)
Section QuadMesh.

Variable defaultUV : number * number.
Variable defaultNormal : Vector3.

Definition Vertex_new (p : Vector3) : Vertex :=
  {| position := p; uv := defaultUV; normal := defaultNormal |}.

Definition setupQuadMesh : M ref :=
  quad <- WebGPUMesh_new ;;
  addVertex quad
    [ Vertex_new (Vector3_new (-1) 1 0);
      Vertex_new (Vector3_new (-1) (-1) 0);
      Vertex_new (Vector3_new 1 (-1) 0);
      Vertex_new (Vector3_new (-1) 1 0);
      Vertex_new (Vector3_new 1 1 0);
      Vertex_new (Vector3_new 1 (-1) 0) ] ;;;
  ret quad.

End QuadMesh.

(** ** Reading the list of GPU calls *)

Fixpoint choose {A B} (f : A -> option B) (l : list A) : list B :=
  match l with
  | [] => []
  | c :: l' => match f c with
               | Some v => v :: choose f l'
               | None => choose f l'
               end
  end.

(** The command-recording sessions opened, by their encoder. *)
Definition encodersOpened : list GPUCall -> list handle :=
  choose (fun c => match c with CreateCommandEncoder _ enc => Some enc | _ => None end).

(** The render passes begun: encoder, descriptor, pass. *)
Definition passesBegun
  : list GPUCall -> list (handle * GPURenderPassDescriptor * handle) :=
  choose (fun c => match c with
                   | BeginRenderPass enc desc pass => Some (enc, desc, pass)
                   | _ => None
                   end).

(** The queue submissions: device, command buffers. *)
Definition submissions : list GPUCall -> list (handle * list handle) :=
  choose (fun c => match c with Submit d cmds => Some (d, cmds) | _ => None end).

(** The pipelines set on a pass, one per draw of [draw]. *)
Definition pipelinesSet : list GPUCall -> list handle :=
  choose (fun c => match c with SetPipeline _ p => Some p | _ => None end).

(** The draw calls, by their vertex count. *)
Definition drawCounts : list GPUCall -> list number :=
  choose (fun c => match c with Draw _ n => Some n | _ => None end).

(** The buffers created: size in bytes, buffer. *)
Definition buffersCreated : list GPUCall -> list (nat * handle) :=
  choose (fun c => match c with CreateBuffer _ sz _ buf => Some (sz, buf) | _ => None end).

(** The vertex count [draw] passes for a mesh. *)
Definition vertexCountOf (m : WebGPUMesh) : number :=
  js_div (inject_Z (Z.of_nat (length (vertices m)))) (3 + 2 + 3).

(** The actors [render] draws: the input sequence without the camera. *)
Definition withoutCamera (actors : list ref) (camera : ref) : list ref :=
  filter (fun actor => negb (Nat.eqb actor camera)) actors.

(** ** Geometry of an interleaved vertex list *)

(** The position of each vertex of a POSITION, UV, NORMAL list (stride 8). *)
Fixpoint positionsOf (content : list number) : list (number * number * number) :=
  match content with
  | px :: py :: pz :: _ :: _ :: _ :: _ :: _ :: rest => (px, py, pz) :: positionsOf rest
  | _ => []
  end.

(** Triangles of a ["triangle-list"]: consecutive groups of three vertices. *)
Fixpoint trianglesOf {P} (ps : list P) : list (P * P * P) :=
  match ps with
  | p0 :: p1 :: p2 :: rest => (p0, p1, p2) :: trianglesOf rest
  | _ => []
  end.

(** Twice the signed area of (p, q, s), in the xy plane. *)
Definition edge (p q s : number * number * number) : Q :=
  let '(px, py, _) := p in
  let '(qx, qy, _) := q in
  let '(sx, sy, _) := s in
  (qx - px) * (sy - py) - (qy - py) * (sx - px).

(** [s] lies in the closed triangle [t]: on the same side of its three edges. *)
Definition inTriangle (t : (number * number * number) * (number * number * number)
                           * (number * number * number))
    (s : number * number * number) : Prop :=
  let '(p0, p1, p2) := t in
  (0 <= edge p0 p1 s /\ 0 <= edge p1 p2 s /\ 0 <= edge p2 p0 s) \/
  (edge p0 p1 s <= 0 /\ edge p1 p2 s <= 0 /\ edge p2 p0 s <= 0).

(** ** class Actor *)

Module ActorClass.

Record Actor := mkActor {
  transform : ref;
  mesh : ref;
  material : ref
}.

Record Program := mkProgram {
  actors : list ref;                (* [private static actors: Actor[]] *)
  nextRef : nat;                    (* next fresh object identity *)
  objects : ref -> option Actor     (* the fields of the actors built so far *)
}.

(** Program start: [Actor.actors = []], nothing allocated. *)
Definition start : Program :=
  {| actors := []; nextRef := 0; objects := fun _ => None |}.

(** [new Actor()] (also run, through [super()], by every subclass):
    pushes [this], then builds the three fields.  Returns [this]. *)
Definition constructor (s : Program) : ref * Program :=
  let this := nextRef s in
  let registry := actors s ++ [this] in
  let t := S this in                 (* [new Transform()] *)
  let m := S t in                    (* [new Mesh()] *)
  let mat := S m in                  (* [new Material()] *)
  (this,
   {| actors := registry;
      nextRef := S mat;
      objects := fun o => if Nat.eqb o this
                          then Some {| transform := t; mesh := m; material := mat |}
                          else objects s o |}).

Definition update (this : ref) (s : Program) : Program := s.

Definition getActors (s : Program) : list ref := actors s.

Definition getMesh (this : ref) (s : Program) : option ref :=
  option_map mesh (objects s this).

Definition getMaterial (this : ref) (s : Program) : option ref :=
  option_map material (objects s this).

Definition getTransform (this : ref) (s : Program) : option ref :=
  option_map transform (objects s this).

Definition setField (upd : Actor -> Actor) (this : ref) (s : Program) : Program :=
  {| actors := actors s;
     nextRef := nextRef s;
     objects := fun o => if Nat.eqb o this
                         then option_map upd (objects s this)
                         else objects s o |}.

Definition setMesh (this m : ref) : Program -> Program :=
  setField (fun o => {| transform := transform o; mesh := m; material := material o |}) this.

Definition setMaterial (this mat : ref) : Program -> Program :=
  setField (fun o => {| transform := transform o; mesh := mesh o; material := mat |}) this.

(** The operations of the class. *)
Inductive Op :=
| New
| Update (this : ref)
| GetActors
| GetMesh (this : ref)
| GetMaterial (this : ref)
| GetTransform (this : ref)
| SetMesh (this m : ref)
| SetMaterial (this mat : ref).

(** One operation: the new program state, and the actor built if any. *)
Definition exec (op : Op) (s : Program) : Program * option ref :=
  match op with
  | New => let '(this, s') := constructor s in (s', Some this)
  | Update this => (update this s, None)
  | GetActors => let _ := getActors s in (s, None)
  | GetMesh this => let _ := getMesh this s in (s, None)
  | GetMaterial this => let _ := getMaterial this s in (s, None)
  | GetTransform this => let _ := getTransform this s in (s, None)
  | SetMesh this m => (setMesh this m s, None)
  | SetMaterial this mat => (setMaterial this mat s, None)
  end.

(** A sequence of operations: the final state and the actors built, in
    the order of their construction. *)
Fixpoint run (ops : list Op) (s : Program) : Program * list ref :=
  match ops with
  | [] => (s, [])
  | op :: ops' =>
      let '(s1, built1) := exec op s in
      let '(s2, built2) := run ops' s1 in
      (s2, match built1 with Some this => this :: built2 | None => built2 end)
  end.

End ActorClass.

(** ** Definitions used to state the properties *)

(** The eight numbers of a vertex, in the order [addVertex] pushes them. *)
Definition flatten (vert : Vertex) : list number :=
  getPosition vert ++ getUV vert ++ getNormal vert.

(** A world with nothing in it: no GPU call made, every mesh empty and
    without a cached buffer. *)
Definition emptyWorld : World :=
  {| nextId := 0; calls := []; meshes := fun _ => {| vertices := []; vertexBuffer := None |} |}.

(** The mesh object 100 of [emptyWorld] is given three numbers, its buffer is
    asked for on device 7, its content is replaced by eight numbers and its
    buffer is asked for again. *)
Definition replaceAfterUse : M (handle * handle) :=
  setVertices 100 [1; 2; 3] ;;;
  first <- getVertexBuffer 100 7 ;;
  setVertices 100 [1; 2; 3; 4; 5; 6; 7; 8] ;;;
  second <- getVertexBuffer 100 7 ;;
  ret (first, second).

(** One vertex, with position (1,2,3), uv (4,5) and normal (6,7,8). *)
Definition sampleVertex : Vertex :=
  {| position := mkVector3 1 2 3; uv := (4, 5); normal := mkVector3 6 7 8 |}.

(** The mesh object 100 of [emptyWorld] receives a vertex, its buffer is asked
    for on device 7, it receives a second vertex and its buffer is asked for
    again. *)
Definition addAfterUse : M (handle * handle) :=
  addVertex 100 [sampleVertex] ;;;
  first <- getVertexBuffer 100 7 ;;
  addVertex 100 [sampleVertex] ;;;
  second <- getVertexBuffer 100 7 ;;
  ret (first, second).



(** A Ready renderer, a scene and a world to run them in. *)
Definition readyRenderer : WebGPURenderer :=
  {| usePostProcessing := false;
     renderingCanvas := {| canvas := 1; visible := true |};
     postProcessingRenderingCanvas := {| canvas := 2; visible := false |};
     gpu := 3;
     adapter := Some 4%nat;
     device := Some 5%nat;
     context := Some 6%nat;
     postProcessingContext := Some 7%nat;
     postProcessingPipeline := Some 8%nat;
     depthView := Some 9%nat;
     quadMesh := 10;
     sampler := Some 11%nat;
     primitiveTopology := triangle_list |}.

(** The renderer as its constructor leaves it until the device arrives. *)
Definition uninitializedRenderer : WebGPURenderer :=
  {| usePostProcessing := false;
     renderingCanvas := {| canvas := 1; visible := true |};
     postProcessingRenderingCanvas := {| canvas := 2; visible := false |};
     gpu := 3;
     adapter := None;
     device := None;
     context := None;
     postProcessingContext := None;
     postProcessingPipeline := None;
     depthView := None;
     quadMesh := 10;
     sampler := None;
     primitiveTopology := triangle_list |}.

Definition sampleScene : Scene :=
  {| getMesh := fun actor => (100 + actor)%nat;
     getRenderPipeline := fun actor => (200 + actor)%nat;
     getTransformationMatrix := fun _ => [1; 0; 0; 0; 0; 1; 0; 0; 0; 0; 1; 0; 0; 0; 0; 1];
     getRotationMatrix := fun _ => [1; 0; 0; 0; 0; 1; 0; 0; 0; 0; 1; 0; 0; 0; 0; 1];
     getViewTransformationMatrix := fun _ => [1; 0; 0; 0; 0; 1; 0; 0; 0; 0; 1; 0; 0; 0; 0; 1];
     getProjectionBuffer := fun camera => (300 + camera)%nat |}.

(** Every id used by the examples lies below 1000. *)
Definition sampleWorld : World :=
  {| nextId := 1000; calls := [];
     meshes := fun _ => {| vertices := [1; 2; 3; 4; 5; 6; 7; 8]; vertexBuffer := None |} |}.

(** ** More readings of the list of GPU calls *)

(** The buffers created, in full: device, size in bytes, usage, buffer. *)
Definition buffersCreatedWith : list GPUCall -> list (handle * nat * Z * handle) :=
  choose (fun c => match c with
                   | CreateBuffer d sz usage buf => Some (d, sz, usage, buf)
                   | _ => None
                   end).

(** The views created: texture, view. *)
Definition viewsCreated : list GPUCall -> list (handle * handle) :=
  choose (fun c => match c with CreateView t v => Some (t, v) | _ => None end).

(** The bind groups set on a pass: pass, index, bind group. *)
Definition bindGroupsSet : list GPUCall -> list (handle * nat * handle) :=
  choose (fun c => match c with SetBindGroup p i bg => Some (p, i, bg) | _ => None end).

(** The textures among the resources handed to the bind-group builder. *)
Definition texturesOf : list Resource -> list handle :=
  choose (fun entry => match entry with IsGPUTexture t => Some t | _ => None end).

(** What [renderActor] may record between [beginRenderPass] and [end] of the
    pass [pass]: resource creation and uploads, and commands of that pass. *)
Definition recordedOn (pass : handle) (c : GPUCall) : Prop :=
  match c with
  | CreateBuffer _ _ _ _ | WriteBuffer _ _ _ _
  | GetBindGroupLayout _ _ _ | CreateBindGroup _ _ _ _ => True
  | SetPipeline p _ | SetVertexBuffer p _ _ | SetBindGroup p _ _ | Draw p _ => p = pass
  | _ => False
  end.


(** A mesh is created, filled through [addVertex] and its buffer asked for. *)
Definition buildMesh (vertex : list Vertex) (device : handle) : M (ref * handle) :=
  this <- WebGPUMesh_new ;;
  addVertex this vertex ;;;
  vb <- getVertexBuffer this device ;;
  ret (this, vb).

(** The GPU calls of one [getVertexBuffer], as decided by the cache it finds. *)
Definition vertexBufferCalls (device : handle) (m : WebGPUMesh) (vb : handle) : list GPUCall :=
  match vertexBuffer m with
  | Some _ => []
  | None =>
      [ CreateBuffer device (4 * length (vertices m))
          (Z.lor GPUBufferUsage_VERTEX GPUBufferUsage_COPY_DST) vb;
        WriteBuffer device vb 0 (vertices m) ]
  end.

(** A mesh has a cached vertex buffer. *)
Definition cached (w : World) (m : ref) : Prop := vertexBuffer (meshes w m) <> None.

(** A world in which every mesh holds one vertex and a cached buffer. *)
Definition warmWorld : World :=
  {| nextId := 1000; calls := [];
     meshes := fun _ => {| vertices := [1; 2; 3; 4; 5; 6; 7; 8]; vertexBuffer := Some 500%nat |} |}.

(** [this.quadMesh = quad]. *)
Definition withQuadMesh (quad : ref) (rd : WebGPURenderer) : WebGPURenderer :=
  {| usePostProcessing := usePostProcessing rd;
     renderingCanvas := renderingCanvas rd;
     postProcessingRenderingCanvas := postProcessingRenderingCanvas rd;
     gpu := gpu rd;
     adapter := adapter rd;
     device := device rd;
     context := context rd;
     postProcessingContext := postProcessingContext rd;
     postProcessingPipeline := postProcessingPipeline rd;
     depthView := depthView rd;
     quadMesh := quad;
     sampler := sampler rd;
     primitiveTopology := primitiveTopology rd |}.

(** [this.quadMesh = this.setupQuadMesh()] as in the constructor and in
    [finalize], followed by a first post-processing pass. *)
Definition quadThenPostProcessing (defaultUV : number * number) (defaultNormal : Vector3)
    (rd : WebGPURenderer) (device context depthView pipeline frameTexture sampler : handle)
  : M unit :=
  quad <- setupQuadMesh defaultUV defaultNormal ;;
  renderPostProcessing (withQuadMesh quad rd)
    device context depthView pipeline frameTexture sampler.

(** ** The host: canvases, the window and the set-up part of the GPU API *)

Definition vertexShader : string := "
struct VertexOutput 
{
    @builtin(position) vertPosition : vec4<f32>,
    @location(0) uv : vec2<f32>,
};

@vertex
fn main(@location(0) position: vec3<f32>) -> VertexOutput
{
    var output : VertexOutput;
    output.vertPosition = vec4<f32>(position, 1.0);
    output.uv = position.xy;
    return output;
}".

Definition fragmentShader : string := "
@group(0) @binding(0) var texture : texture_2d<f32>;
@group(0) @binding(1) var samp : sampler;

@fragment
fn main(@location(0) uv: vec2<f32>) -> @location(0) vec4<f32>
{
    let coord = vec2<f32>((uv.x + 1.0) / 2.0, (1.0 - uv.y) / 2.0);
    let color = textureSample(texture, samp, coord);
    return sqrt(color);
}".

Inductive GPUTextureFormat := bgra8unorm | rgba8unorm | depth24plus.

Definition GPUTextureUsage_COPY_SRC : Z := 1.
Definition GPUTextureUsage_COPY_DST : Z := 2.
Definition GPUTextureUsage_TEXTURE_BINDING : Z := 4.
Definition GPUTextureUsage_RENDER_ATTACHMENT : Z := 16.

Inductive GPUCanvasAlphaMode := alpha_opaque | alpha_premultiplied.

Record GPUCanvasConfiguration := {
  config_device : handle;
  config_format : GPUTextureFormat;
  alphaMode : GPUCanvasAlphaMode;
  config_usage : Z
}.

Inductive GPUFilterMode := filter_nearest | filter_linear.
Inductive GPUVertexFormat := float32x2 | float32x3.
Inductive GPUVertexStepMode := step_vertex | step_instance.
Inductive GPUCompareFunction := compare_never | compare_less | compare_always.

Record GPUVertexAttribute := {
  shaderLocation : nat;
  format : GPUVertexFormat;
  offset : nat
}.

Record GPUVertexBufferLayout := {
  attributes : list GPUVertexAttribute;
  stepMode : GPUVertexStepMode;
  arrayStride : nat
}.

Record GPUVertexState := {
  vertex_entryPoint : string;
  vertex_module : handle;
  buffers : list GPUVertexBufferLayout
}.

Record GPUFragmentState := {
  fragment_entryPoint : string;
  fragment_module : handle;
  targets : list GPUTextureFormat
}.

Record GPUDepthStencilState := {
  depthWriteEnabled : bool;
  depthCompare : GPUCompareFunction;
  depth_format : GPUTextureFormat
}.

Inductive GPUAutoLayoutMode := layout_auto.

Record GPURenderPipelineDescriptor := {
  layout : GPUAutoLayoutMode;
  vertex : GPUVertexState;
  fragment : GPUFragmentState;
  topology : GPUPrimitiveTopology;
  depthStencil : GPUDepthStencilState
}.

(** A listener registered on the window: [this.resize.bind(this, device)]. *)
Inductive Listener := ResizeWith (dev : handle).

(** The calls made on the host, GPU calls among them, oldest first. *)
Inductive HostCall :=
| Gpu (c : GPUCall)
| NewCanvas (canvas : handle)
| RequestAdapter (gpu : handle) (highPerformance : bool)
| RequestDevice (adapter : handle)
| GetContext (canvas : handle)
| Configure (context : handle) (config : GPUCanvasConfiguration)
| CreateTexture (dev : handle) (width height : nat) (fmt : GPUTextureFormat) (usage : Z)
    (tex : handle)
| CreateSampler (dev : handle) (magFilter minFilter : GPUFilterMode) (s : handle)
| CreateShaderModule (dev : handle) (code : string) (m : handle)
| CreateRenderPipeline (dev : handle) (desc : GPURenderPipelineDescriptor) (p : handle)
| CanvasResize (canvas : handle)
| AddEventListener (type : string) (listener : Listener).

(** What the platform answers.  Modelled from the spec for the two entries
    about [RenderingCanvas], whose file is not among the sources: a new
    canvas is visible or not as [newCanvasVisible] says, and [resize()] gives
    the canvas element the size [resizedSize] says. *)
Record Platform := {
  navigator_gpu : option handle;            (* [navigator.gpu] *)
  adapterGranted : option handle;           (* what [gpu.requestAdapter(...)] resolves to *)
  deviceGranted : option handle;            (* what [adapter.requestDevice()] resolves to *)
  webgpuContext : handle -> option handle;  (* [canvas.getContext("webgpu")] *)
  preferredCanvasFormat : GPUTextureFormat; (* [gpu.getPreferredCanvasFormat()] *)
  newCanvasVisible : bool;
  resizedSize : handle -> nat * nat
}.

Record Host := mkHost {
  hostNext : nat;                           (* next fresh identity *)
  hostLog : list HostCall;                  (* calls so far, oldest first *)
  hostMeshes : ref -> WebGPUMesh;           (* the mesh objects *)
  canvasSize : handle -> nat * nat          (* [canvas.width], [canvas.height] *)
}.

(** State and exceptions over any state. *)
Inductive res (S A : Type) :=
| Ok (v : A) (s : S)
| Err (msg : string) (s : S).

Arguments Ok {S A} v s.
Arguments Err {S A} msg s.

Definition SM (S A : Type) := S -> res S A.

Definition sret {S A} (v : A) : SM S A := fun s => Ok v s.

Definition sthrow {S A} (msg : string) : SM S A := fun s => Err msg s.

Definition sbind {S A B} (m : SM S A) (k : A -> SM S B) : SM S B :=
  fun s => match m s with
           | Ok v s' => k v s'
           | Err msg s' => Err msg s'
           end.

Notation "x <~ m ;; k" := (sbind m (fun x => k))
  (at level 61, m at next level, right associativity).
Notation "m ;;~ k" := (sbind m (fun _ => k))
  (at level 61, right associativity).

(** A computation on the GPU and the meshes, run on the host: its calls are
    appended to the host's. *)
Definition liftGpu {A} (m : M A) : SM Host A :=
  fun h =>
    match m {| nextId := hostNext h; calls := []; meshes := hostMeshes h |} with
    | Returned v w =>
        Ok v {| hostNext := nextId w; hostLog := hostLog h ++ map Gpu (calls w);
                hostMeshes := meshes w; canvasSize := canvasSize h |}
    | Thrown msg w =>
        Err msg {| hostNext := nextId w; hostLog := hostLog h ++ map Gpu (calls w);
                   hostMeshes := meshes w; canvasSize := canvasSize h |}
    end.

Definition hostFresh : SM Host nat :=
  fun h => Ok (hostNext h)
             {| hostNext := S (hostNext h); hostLog := hostLog h;
                hostMeshes := hostMeshes h; canvasSize := canvasSize h |}.

Definition hostEmit (c : HostCall) : SM Host unit :=
  fun h => Ok tt
             {| hostNext := hostNext h; hostLog := hostLog h ++ [c];
                hostMeshes := hostMeshes h; canvasSize := canvasSize h |}.

Definition readCanvasSize (cv : handle) : SM Host (nat * nat) :=
  fun h => Ok (canvasSize h cv) h.

Definition writeCanvasSize (cv : handle) (size : nat * nat) : SM Host unit :=
  fun h => Ok tt
             {| hostNext := hostNext h; hostLog := hostLog h;
                hostMeshes := hostMeshes h;
                canvasSize := fun c' => if Nat.eqb c' cv then size else canvasSize h c' |}.

(** The methods of the renderer run on the renderer and the host. *)
Definition R (A : Type) := SM (WebGPURenderer * Host) A.

Definition onHost {A} (m : SM Host A) : R A :=
  fun s => match m (snd s) with
           | Ok v h' => Ok v (fst s, h')
           | Err msg h' => Err msg (fst s, h')
           end.

Definition getThis : R WebGPURenderer := fun s => Ok (fst s) s.

Definition setThis (f : WebGPURenderer -> WebGPURenderer) : R unit :=
  fun s => Ok tt (f (fst s), snd s).

(** Assignments to the fields of [this]. *)
Definition set_adapter (v : option handle) (rd : WebGPURenderer) : WebGPURenderer :=
  {| usePostProcessing := usePostProcessing rd; renderingCanvas := renderingCanvas rd;
     postProcessingRenderingCanvas := postProcessingRenderingCanvas rd; gpu := gpu rd;
     adapter := v; device := device rd; context := context rd;
     postProcessingContext := postProcessingContext rd;
     postProcessingPipeline := postProcessingPipeline rd; depthView := depthView rd;
     quadMesh := quadMesh rd; sampler := sampler rd;
     primitiveTopology := primitiveTopology rd |}.

Definition set_device (v : option handle) (rd : WebGPURenderer) : WebGPURenderer :=
  {| usePostProcessing := usePostProcessing rd; renderingCanvas := renderingCanvas rd;
     postProcessingRenderingCanvas := postProcessingRenderingCanvas rd; gpu := gpu rd;
     adapter := adapter rd; device := v; context := context rd;
     postProcessingContext := postProcessingContext rd;
     postProcessingPipeline := postProcessingPipeline rd; depthView := depthView rd;
     quadMesh := quadMesh rd; sampler := sampler rd;
     primitiveTopology := primitiveTopology rd |}.

Definition set_context (v : option handle) (rd : WebGPURenderer) : WebGPURenderer :=
  {| usePostProcessing := usePostProcessing rd; renderingCanvas := renderingCanvas rd;
     postProcessingRenderingCanvas := postProcessingRenderingCanvas rd; gpu := gpu rd;
     adapter := adapter rd; device := device rd; context := v;
     postProcessingContext := postProcessingContext rd;
     postProcessingPipeline := postProcessingPipeline rd; depthView := depthView rd;
     quadMesh := quadMesh rd; sampler := sampler rd;
     primitiveTopology := primitiveTopology rd |}.

Definition set_postProcessingContext (v : option handle) (rd : WebGPURenderer)
  : WebGPURenderer :=
  {| usePostProcessing := usePostProcessing rd; renderingCanvas := renderingCanvas rd;
     postProcessingRenderingCanvas := postProcessingRenderingCanvas rd; gpu := gpu rd;
     adapter := adapter rd; device := device rd; context := context rd;
     postProcessingContext := v;
     postProcessingPipeline := postProcessingPipeline rd; depthView := depthView rd;
     quadMesh := quadMesh rd; sampler := sampler rd;
     primitiveTopology := primitiveTopology rd |}.

Definition set_postProcessingPipeline (v : option handle) (rd : WebGPURenderer)
  : WebGPURenderer :=
  {| usePostProcessing := usePostProcessing rd; renderingCanvas := renderingCanvas rd;
     postProcessingRenderingCanvas := postProcessingRenderingCanvas rd; gpu := gpu rd;
     adapter := adapter rd; device := device rd; context := context rd;
     postProcessingContext := postProcessingContext rd;
     postProcessingPipeline := v; depthView := depthView rd;
     quadMesh := quadMesh rd; sampler := sampler rd;
     primitiveTopology := primitiveTopology rd |}.

Definition set_depthView (v : option handle) (rd : WebGPURenderer) : WebGPURenderer :=
  {| usePostProcessing := usePostProcessing rd; renderingCanvas := renderingCanvas rd;
     postProcessingRenderingCanvas := postProcessingRenderingCanvas rd; gpu := gpu rd;
     adapter := adapter rd; device := device rd; context := context rd;
     postProcessingContext := postProcessingContext rd;
     postProcessingPipeline := postProcessingPipeline rd; depthView := v;
     quadMesh := quadMesh rd; sampler := sampler rd;
     primitiveTopology := primitiveTopology rd |}.

Definition set_sampler (v : option handle) (rd : WebGPURenderer) : WebGPURenderer :=
  {| usePostProcessing := usePostProcessing rd; renderingCanvas := renderingCanvas rd;
     postProcessingRenderingCanvas := postProcessingRenderingCanvas rd; gpu := gpu rd;
     adapter := adapter rd; device := device rd; context := context rd;
     postProcessingContext := postProcessingContext rd;
     postProcessingPipeline := postProcessingPipeline rd; depthView := depthView rd;
     quadMesh := quadMesh rd; sampler := v;
     primitiveTopology := primitiveTopology rd |}.

(** ** class WebGPURenderer, construction and set-up *)

(** Modelled from the spec: [new RenderingCanvas()] makes a drawable surface
    bound to a new visual element. *)
Definition RenderingCanvas_new (pf : Platform) : SM Host RenderingCanvas :=
  cv <~ hostFresh ;;
  hostEmit (NewCanvas cv) ;;~
  sret {| canvas := cv; visible := newCanvasVisible pf |}.

Definition getCanvas (c : RenderingCanvas) : handle := canvas c.

(** Modelled from the spec: [RenderingCanvas.resize()] re-derives the
    dimensions of the canvas element. *)
Definition RenderingCanvas_resize (pf : Platform) (c : RenderingCanvas) : SM Host unit :=
  hostEmit (CanvasResize (canvas c)) ;;~
  writeCanvasSize (canvas c) (resizedSize pf (canvas c)).

Definition createTexture (dev : handle) (width height : nat) (fmt : GPUTextureFormat)
    (usage : Z) : SM Host handle :=
  tex <~ hostFresh ;; hostEmit (CreateTexture dev width height fmt usage tex) ;;~ sret tex.

Definition createSampler (dev : handle) (magFilter minFilter : GPUFilterMode)
  : SM Host handle :=
  s <~ hostFresh ;; hostEmit (CreateSampler dev magFilter minFilter s) ;;~ sret s.

Definition createShaderModule (dev : handle) (code : string) : SM Host handle :=
  m <~ hostFresh ;; hostEmit (CreateShaderModule dev code m) ;;~ sret m.

Definition createRenderPipeline (dev : handle) (desc : GPURenderPipelineDescriptor)
  : SM Host handle :=
  p <~ hostFresh ;; hostEmit (CreateRenderPipeline dev desc p) ;;~ sret p.

Definition setupSampler (dev : handle) : SM Host handle :=
  createSampler dev filter_linear filter_linear.

Definition setupDepthTexture (dev cv : handle) : SM Host handle :=
  size <~ readCanvasSize cv ;;
  createTexture dev (fst size) (snd size) depth24plus GPUTextureUsage_RENDER_ATTACHMENT.

Definition setupDepthView (dev : handle) : R handle :=
  this <~ getThis ;;
  depthTexture <~ onHost (setupDepthTexture dev (getCanvas (renderingCanvas this))) ;;
  onHost (liftGpu (createView depthTexture)).

Definition setupGPU (pf : Platform) : SM Host handle :=
  match navigator_gpu pf with
  | None => sthrow "Can't get the GPU"
  | Some g => sret g
  end.

(** An [async] function is run in two parts: up to its [await], where the
    request is made, and from there on, with what the platform granted. *)
Definition setupAdapter_request (g : handle) : SM Host unit :=
  hostEmit (RequestAdapter g true).

Definition setupAdapter_resume (pf : Platform) : SM Host handle :=
  match adapterGranted pf with
  | None => sthrow "Can't get adapter"
  | Some adp => sret adp
  end.

Definition setupDevice_request (adp : handle) : SM Host unit :=
  hostEmit (RequestDevice adp).

Definition setupDevice_resume (pf : Platform) : SM Host handle :=
  match deviceGranted pf with
  | None => sthrow "Can't get device"
  | Some dev => sret dev
  end.

Definition getContextConfig (pf : Platform) (dev : handle) : GPUCanvasConfiguration :=
  {| config_device := dev;
     config_format := preferredCanvasFormat pf;
     alphaMode := alpha_opaque;
     config_usage := Z.lor GPUTextureUsage_RENDER_ATTACHMENT GPUTextureUsage_COPY_SRC |}.

Definition setupContext (pf : Platform) (dev cv : handle) : SM Host handle :=
  hostEmit (GetContext cv) ;;~
  match webgpuContext pf cv with
  | None => sthrow "Can't get context"
  | Some ctx => hostEmit (Configure ctx (getContextConfig pf dev)) ;;~ sret ctx
  end.

Definition resize (pf : Platform) (dev : handle) : R unit :=
  this <~ getThis ;;
  onHost (RenderingCanvas_resize pf (renderingCanvas this)) ;;~
  onHost (RenderingCanvas_resize pf (postProcessingRenderingCanvas this)) ;;~
  dv <~ setupDepthView dev ;;
  setThis (set_depthView (Some dv)).

Definition getPrimitiveTopology (rd : WebGPURenderer) : GPUPrimitiveTopology :=
  primitiveTopology rd.

Definition postProcessingPipelineDescriptor (pf : Platform) (rd : WebGPURenderer)
    (vertexModule fragmentModule : handle) : GPURenderPipelineDescriptor :=
  {| layout := layout_auto;
     vertex :=
       {| vertex_entryPoint := "main";
          vertex_module := vertexModule;
          buffers :=
            [ {| attributes :=
                   [ {| shaderLocation := 0; format := float32x3; offset := 0 |};
                     {| shaderLocation := 1; format := float32x2; offset := 3 * 4 |};
                     {| shaderLocation := 2; format := float32x3; offset := (3 + 2) * 4 |} ];
                 stepMode := step_vertex;
                 arrayStride := (3 + 2 + 3) * 4 |} ] |};
     fragment :=
       {| fragment_entryPoint := "main";
          fragment_module := fragmentModule;
          targets := [ preferredCanvasFormat pf ] |};
     topology := getPrimitiveTopology rd;
     depthStencil :=
       {| depthWriteEnabled := true;
          depthCompare := compare_less;
          depth_format := depth24plus |} |}.

Definition setupPostProcessingPipeline (pf : Platform) (dev : handle) : R handle :=
  vertexModule <~ onHost (createShaderModule dev vertexShader) ;;
  fragmentModule <~ onHost (createShaderModule dev fragmentShader) ;;
  this <~ getThis ;;
  onHost (createRenderPipeline dev
            (postProcessingPipelineDescriptor pf this vertexModule fragmentModule)).

Section Setup.

Variable pf : Platform.
Variable defaultUV : number * number.
Variable defaultNormal : Vector3.

Definition finalize (dev : handle) : R unit :=
  setThis (set_device (Some dev)) ;;~
  this <~ getThis ;;
  ctx <~ onHost (setupContext pf dev (getCanvas (renderingCanvas this))) ;;
  setThis (set_context (Some ctx)) ;;~
  pctx <~ onHost (setupContext pf dev (getCanvas (postProcessingRenderingCanvas this))) ;;
  setThis (set_postProcessingContext (Some pctx)) ;;~
  pipeline <~ setupPostProcessingPipeline pf dev ;;
  setThis (set_postProcessingPipeline (Some pipeline)) ;;~
  dv <~ setupDepthView dev ;;
  setThis (set_depthView (Some dv)) ;;~
  quad <~ onHost (liftGpu (setupQuadMesh defaultUV defaultNormal)) ;;
  setThis (withQuadMesh quad) ;;~
  smp <~ onHost (setupSampler dev) ;;
  setThis (set_sampler (Some smp)) ;;~
  resize pf dev ;;~
  onHost (hostEmit (AddEventListener "resize" (ResizeWith dev))).

(** [setup()] from the point where the adapter request has settled. *)
Definition setup_adapterSettled : R handle :=
  adp <~ onHost (setupAdapter_resume pf) ;;
  setThis (set_adapter (Some adp)) ;;~
  onHost (setupDevice_request adp) ;;~
  sret adp.

(** [setup()] from the point where the device request has settled. *)
Definition setup_deviceSettled : R unit :=
  dev <~ onHost (setupDevice_resume pf) ;;
  finalize dev.

(** [new WebGPURenderer()], up to the first [await] of [setup()]. *)
Definition WebGPURenderer_new : SM Host WebGPURenderer :=
  rc <~ RenderingCanvas_new pf ;;
  prc <~ RenderingCanvas_new pf ;;
  quad <~ liftGpu (setupQuadMesh defaultUV defaultNormal) ;;
  g <~ setupGPU pf ;;
  setupAdapter_request g ;;~
  sret {| usePostProcessing := false;
          renderingCanvas := displayCanvas rc;
          postProcessingRenderingCanvas := prc;
          gpu := g;
          adapter := None;
          device := None;
          context := None;
          postProcessingContext := None;
          postProcessingPipeline := None;
          depthView := None;
          quadMesh := quad;
          sampler := None;
          primitiveTopology := triangle_list |}.

(** The state an outcome leaves, whether it returned or threw: a rejected
    promise that nothing catches leaves the renderer as it is. *)
Definition stateOf {S A} (o : res S A) : S :=
  match o with Ok _ s => s | Err _ s => s end.

Definition succeeded {S A} (o : res S A) : bool :=
  match o with Ok _ _ => true | Err _ _ => false end.

(** The whole initialisation of a renderer that could be constructed: the
    two settlements of [setup()], the second only if the first went
    through. *)
Definition initialise (rd : WebGPURenderer) (h : Host) : WebGPURenderer * Host :=
  match setup_adapterSettled (rd, h) with
  | Ok _ s => stateOf (setup_deviceSettled s)
  | Err _ s => s
  end.

End Setup.

(** A render on the host. *)
Definition renderOnHost (sc : Scene) (actors : list ref) (camera : ref) : R unit :=
  this <~ getThis ;; onHost (liftGpu (render sc this actors camera)).

(** A platform that grants everything, and a host to run on. *)
Definition samplePlatform : Platform :=
  {| navigator_gpu := Some 3%nat;
     adapterGranted := Some 4%nat;
     deviceGranted := Some 5%nat;
     webgpuContext := fun cv => Some (50 + cv)%nat;
     preferredCanvasFormat := bgra8unorm;
     newCanvasVisible := false;
     resizedSize := fun _ => (8%nat, 6%nat) |}.

(** A platform whose canvases give no WebGPU context. *)
Definition contextlessPlatform : Platform :=
  {| navigator_gpu := Some 3%nat;
     adapterGranted := Some 4%nat;
     deviceGranted := Some 5%nat;
     webgpuContext := fun _ => None;
     preferredCanvasFormat := bgra8unorm;
     newCanvasVisible := false;
     resizedSize := fun _ => (8%nat, 6%nat) |}.

Definition sampleHost : Host :=
  {| hostNext := 1000; hostLog := [];
     hostMeshes := fun _ => {| vertices := []; vertexBuffer := None |};
     canvasSize := fun _ => (3%nat, 2%nat) |}.

Definition isSome {A} (o : option A) : bool :=
  match o with Some _ => true | None => false end.

(** The size in bytes of a vertex attribute of the given format. *)
Definition formatBytes (f : GPUVertexFormat) : nat :=
  match f with float32x2 => 8 | float32x3 => 12 end.

(** ** class FileReader *)

Module FileReaderClass.

(** The fields of an [XMLHttpRequest] that the handler reads. *)
Record XMLHttpRequest := mkXHR {
  readyState : nat;
  status : nat;
  responseText : string
}.

Inductive XHRCall :=
| Open (method path : string)
| Send.

(** The handler [readFile] installs as [onreadystatechange]: the argument the
    callback is called with, if it is called. *)
Definition onreadystatechange (this : XMLHttpRequest) : option string :=
  if Nat.eqb (readyState this) 4 && Nat.eqb (status this) 200
  then Some (responseText this)
  else None.

(** [readFile(path, callback)]: the calls made on the request, and, for the
    states the request is in at each later [readystatechange] event, the
    arguments of the successive calls of [callback]. *)
Definition readFile (path : string) (events : list XMLHttpRequest)
  : list XHRCall * list string :=
  ([Open "GET" path; Send], choose onreadystatechange events).

(** The events of one request as the platform fires them: the state rises to
    4 (DONE) and the event for DONE is the last one. *)
Definition lifecycle (events : list XMLHttpRequest) (done : XMLHttpRequest) : Prop :=
  exists earlier,
    events = earlier ++ [done] /\
    Forall (fun e => readyState e < 4)%nat earlier /\
    readyState done = 4%nat.

End FileReaderClass.

(** ** class Actor, runs without setters *)

Definition noSetter (op : ActorClass.Op) : bool :=
  match op with
  | ActorClass.SetMesh _ _ | ActorClass.SetMaterial _ _ => false
  | _ => true
  end.

(** With no setter used, every actor object has the three fields its
    constructor gave it, all allocated right after the actor itself. *)
Definition pristine (s : ActorClass.Program) : Prop :=
  forall o act, ActorClass.objects s o = Some act ->
    ActorClass.transform act = S o /\
    ActorClass.mesh act = S (S o) /\
    ActorClass.material act = S (S (S o)) /\
    In o (ActorClass.actors s) /\ (S (S (S o)) < ActorClass.nextRef s)%nat.

(** * Properties *)

(** ** The monad and the call list *)

Lemma choose_app {A B} (f : A -> option B) (l1 l2 : list A) :
  choose f (l1 ++ l2) = choose f l1 ++ choose f l2.
Proof.
  induction l1 as [|c l1 IH]; simpl; [reflexivity|].
  destruct (f c); simpl; now rewrite IH.
Qed.

Ltac run_monad :=
  cbn [bind ret throw fresh emit readMesh writeMesh
       createCommandEncoder getCurrentTexture createView beginRenderPass
       createBuffer writeBuffer getBindGroupLayout createBindGroup finish
       nextId calls meshes].

(** ** The mesh buffer cache *)

(** [setVertices] replaces the content and leaves the cached buffer as it is;
    it makes no GPU call. *)
Lemma setVertices_effect (this : ref) (vs : list number) (w : World) :
  exists w', setVertices this vs w = Returned tt w' /\
             vertices (meshes w' this) = vs /\
             vertexBuffer (meshes w' this) = vertexBuffer (meshes w this) /\
             calls w' = calls w /\ nextId w' = nextId w.
Proof.
  unfold setVertices. run_monad. eexists. split; [reflexivity|].
  cbn. rewrite Nat.eqb_refl. cbn. auto.
Qed.

(** [push] appends to the content and leaves the cached buffer as it is. *)
Lemma push_effect (this : ref) (xs : list number) (w : World) :
  exists w', push this xs w = Returned tt w' /\
             vertices (meshes w' this) = vertices (meshes w this) ++ xs /\
             vertexBuffer (meshes w' this) = vertexBuffer (meshes w this) /\
             calls w' = calls w /\ nextId w' = nextId w.
Proof.
  unfold push. run_monad. eexists. split; [reflexivity|].
  cbn. rewrite Nat.eqb_refl. cbn. auto.
Qed.

(** [addVertex] appends position, uv, normal of each vertex, in that order,
    and leaves the cached buffer as it is. *)
Lemma addVertex_effect (this : ref) (vertex : list Vertex) (w : World) :
  exists w', addVertex this vertex w = Returned tt w' /\
             vertices (meshes w' this) = vertices (meshes w this) ++ flat_map flatten vertex /\
             vertexBuffer (meshes w' this) = vertexBuffer (meshes w this) /\
             calls w' = calls w /\ nextId w' = nextId w.
Proof.
  unfold addVertex. revert w.
  induction vertex as [|vert rest IH]; intros w.
  - exists w. cbn. rewrite app_nil_r. auto.
  - cbn [forOf]. unfold bind at 1. unfold bind at 1.
    destruct (push_effect this (getPosition vert) w) as (w1 & E1 & V1 & B1 & C1 & N1).
    rewrite E1.
    unfold bind at 1.
    destruct (push_effect this (getUV vert) w1) as (w2 & E2 & V2 & B2 & C2 & N2).
    rewrite E2.
    destruct (push_effect this (getNormal vert) w2) as (w3 & E3 & V3 & B3 & C3 & N3).
    rewrite E3.
    destruct (IH w3) as (w4 & E4 & V4 & B4 & C4 & N4).
    exists w4. split; [exact E4|].
    repeat split; try congruence.
    rewrite V4, V3, V2, V1. cbn [flat_map]. unfold flatten.
    now rewrite <- !app_assoc.
Qed.


(** A mesh whose content is [vs] and that has no cached buffer: the next
    [getVertexBuffer] creates a buffer of [len(vs) * 4] bytes. *)
Lemma getVertexBuffer_builds (this : ref) (device : handle) (w : World) :
  vertexBuffer (meshes w this) = None ->
  exists vb w1,
    getVertexBuffer this device w = Returned vb w1 /\
    buffersCreated (calls w1) =
      buffersCreated (calls w) ++ [((length (vertices (meshes w this)) * 4)%nat, vb)].
Proof.
  intros E. unfold getVertexBuffer, generateVertexBuffer. run_monad.
  rewrite E. run_monad. do 2 eexists. split; [reflexivity|]. cbn [calls].
  unfold buffersCreated. rewrite <- app_assoc, choose_app. cbn [choose app].
  unfold byteLength, Float32Array_from. now rewrite (Nat.mul_comm 4).
Qed.

(** C2.  On [replaceAfterUse], [setVertices] leaves the cached buffer in
    place: the second [getVertexBuffer] returns the buffer built for the
    three old numbers (12 bytes), no buffer of 32 bytes is ever created, and
    the cache still holds the old handle. *)
Theorem setVertices_keeps_cached_buffer :
  exists w',
    replaceAfterUse emptyWorld = Returned (0%nat, 0%nat) w' /\
    vertices (meshes w' 100) = [1; 2; 3; 4; 5; 6; 7; 8] /\
    vertexBuffer (meshes w' 100) = Some 0%nat /\
    buffersCreated (calls w') = [(12%nat, 0%nat)].
Proof.
  eexists. split; [vm_compute; reflexivity|]. vm_compute. auto.
Qed.

(** C7.  On [addAfterUse], [addVertex] appends position, uv and normal in
    that order, and leaves the cached buffer in place: the second
    [getVertexBuffer] returns the buffer built for one vertex (32 bytes)
    although the content now holds two (64 bytes). *)
Theorem addVertex_keeps_cached_buffer :
  exists w',
    addAfterUse emptyWorld = Returned (0%nat, 0%nat) w' /\
    vertices (meshes w' 100) = [1; 2; 3; 4; 5; 6; 7; 8; 1; 2; 3; 4; 5; 6; 7; 8] /\
    vertexBuffer (meshes w' 100) = Some 0%nat /\
    buffersCreated (calls w') = [(32%nat, 0%nat)].
Proof.
  eexists. split; [vm_compute; reflexivity|]. vm_compute. auto.
Qed.

(** ** The quad mesh *)

(** The two triangles of the quad cover the square [-1,1] x [-1,1] of the
    plane z = 0 and nothing outside of it. *)
Lemma quad_triangles_cover (px py : Q) :
  (-1 <= px /\ px <= 1 /\ -1 <= py /\ py <= 1) <->
  Exists (fun t => inTriangle t (px, py, 0))
    (trianglesOf [ (-1, 1, 0); (-1, -1, 0); (1, -1, 0);
                   (-1, 1, 0); (1, 1, 0); (1, -1, 0) ]).
Proof.
  cbn [trianglesOf]. rewrite !Exists_cons, Exists_nil.
  unfold inTriangle, edge. split.
  - intros (Hx0 & Hx1 & Hy0 & Hy1).
    destruct (Qlt_le_dec 0 (px + py)) as [Hpos|Hneg].
    + right. left. right. repeat split; lra.
    + left. left. repeat split; lra.
  - intros [[H|H]|[[H|H]|[]]]; destruct H as (H1 & H2 & H3); repeat split; lra.
Qed.

(** C8.  The quad mesh built by [setupQuadMesh] holds 6 vertices of 8 numbers,
    48 numbers in all; the 6 positions are the corners of two triangles, which
    together cover exactly the clip-space square from (-1,-1) to (1,1).  The
    mesh has no cached buffer yet and building it makes no GPU call. *)
Theorem setupQuadMesh_content (defaultUV : number * number) (defaultNormal : Vector3)
    (w : World) :
  exists quad w',
    setupQuadMesh defaultUV defaultNormal w = Returned quad w' /\
    length (vertices (meshes w' quad)) = (6 * 8)%nat /\
    length (vertices (meshes w' quad)) = 48%nat /\
    positionsOf (vertices (meshes w' quad)) =
      [ (-1, 1, 0); (-1, -1, 0); (1, -1, 0); (-1, 1, 0); (1, 1, 0); (1, -1, 0) ] /\
    length (trianglesOf (positionsOf (vertices (meshes w' quad)))) = 2%nat /\
    (forall px py : Q,
       (-1 <= px /\ px <= 1 /\ -1 <= py /\ py <= 1) <->
       Exists (fun t => inTriangle t (px, py, 0))
         (trianglesOf (positionsOf (vertices (meshes w' quad))))) /\
    vertexBuffer (meshes w' quad) = None /\
    calls w' = calls w.
Proof.
  unfold setupQuadMesh, WebGPUMesh_new.
  set (vs := [Vertex_new _ _ _; _; _; _; _; _]).
  run_monad.
  set (w1 := {| nextId := S (nextId w); calls := calls w; meshes := _ |}).
  destruct (addVertex_effect (nextId w) vs w1) as (w2 & E & V & B & C & N).
  unfold bind. rewrite E. exists (nextId w), w2. split; [reflexivity|].
  assert (V0 : vertices (meshes w1 (nextId w)) = []).
  { subst w1. cbn. now rewrite Nat.eqb_refl. }
  assert (B0 : vertexBuffer (meshes w1 (nextId w)) = None).
  { subst w1. cbn. now rewrite Nat.eqb_refl. }
  rewrite V0 in V. rewrite B0 in B. rewrite V, B, C.
  subst vs. cbn [app flat_map].
  do 4 (split; [reflexivity|]).
  split; [intros px py; exact (quad_triangles_cover px py)|].
  split; reflexivity.
Qed.

(** ** The post-processing toggle *)

(** C4.  After [setUsePostProcessing(use)], whatever the renderer was before,
    exactly one of the two canvases is visible: the post-processing canvas
    when [use] is true, the primary canvas when it is false. *)
Theorem setUsePostProcessing_one_visible (use : bool) (rd : WebGPURenderer) :
  let rd' := setUsePostProcessing use rd in
  xorb (visible (renderingCanvas rd')) (visible (postProcessingRenderingCanvas rd')) = true /\
  visible (postProcessingRenderingCanvas rd') = use /\
  visible (renderingCanvas rd') = negb use /\
  usePostProcessing rd' = use.
Proof.
  destruct use; cbn; auto.
Qed.

(** ** Before the device is there *)

(** C9.  Without a device, [render] returns at once and changes nothing,
    whereas [getDevice] throws; and whenever [getDevice] returns, what it
    returns is the device held by the renderer, never null. *)
Theorem not_ready_render_silent_getDevice_throws
    (sc : Scene) (rd : WebGPURenderer) (actors : list ref) (camera : ref) (w : World) :
  device rd = None ->
  render sc rd actors camera w = Returned tt w /\
  getDevice rd w = Thrown "Error: Device not found" w /\
  (forall rd0 w0 d w1, getDevice rd0 w0 = Returned d w1 -> device rd0 = Some d /\ w1 = w0).
Proof.
  intros E. unfold render, getDevice. rewrite E. cbv [ret throw].
  repeat split; destruct (device rd0); cbv [ret throw] in H; congruence.
Qed.

(** ** The bind-group builder *)






(** ** One frame *)

(** What [getVertexBuffer] adds to the GPU calls: at most the creation and
    the upload of a buffer.  Mesh contents are unchanged. *)
Lemma getVertexBuffer_effect (this : ref) (device : handle) (w : World) :
  exists vb w' d,
    getVertexBuffer this device w = Returned vb w' /\
    calls w' = calls w ++ d /\
    encodersOpened d = [] /\
    passesBegun d = [] /\
    submissions d = [] /\
    pipelinesSet d = [] /\
    drawCounts d = [] /\
    (forall m, vertices (meshes w' m) = vertices (meshes w m)).
Proof.
  unfold getVertexBuffer, generateVertexBuffer. unfold bind at 1. unfold readMesh at 1.
  destruct (vertexBuffer (meshes w this)) as [vb|] eqn:E.
  - exists vb, w, []. rewrite app_nil_r. cbv [ret]. repeat split; reflexivity.
  - run_monad. do 3 eexists. split; [reflexivity|]. cbn [calls meshes].
    split; [repeat rewrite <- app_assoc; cbn [app]; reflexivity|].
    do 5 (split; [reflexivity|]).
    intros m. destruct (Nat.eqb m this) eqn:Em; [|reflexivity].
    apply Nat.eqb_eq in Em. now subst m.
Qed.

(** What one [renderActor] adds to the GPU calls: no command encoder, no
    render pass, no submission; one pipeline set and one draw, for the actor's
    pipeline and the vertex count of its mesh.  Mesh contents are unchanged. *)
Lemma renderActor_effect (sc : Scene) (actor camera : ref) (passEncoder device : handle)
    (w : World) :
  exists w' d,
    renderActor sc actor camera passEncoder device w = Returned tt w' /\
    calls w' = calls w ++ d /\
    encodersOpened d = [] /\
    passesBegun d = [] /\
    submissions d = [] /\
    pipelinesSet d = [getRenderPipeline sc actor] /\
    drawCounts d = [vertexCountOf (meshes w (getMesh sc actor))] /\
    (forall m, vertices (meshes w' m) = vertices (meshes w m)).
Proof.
  unfold renderActor. unfold bind at 1.
  destruct (getVertexBuffer_effect (getMesh sc actor) device w)
    as (vb & w1 & d0 & E0 & C0 & En0 & P0 & S0 & Pi0 & D0 & V0).
  rewrite E0.
  unfold toUniformGPUBuffer, setupUniformBindGroup, draw, getVertices, getActorPipeline.
  cbn [pushEntries getBindGroupEntryResource forOf]. run_monad.
  do 2 eexists. split; [reflexivity|]. cbn [calls meshes].
  rewrite C0.
  split; [repeat rewrite <- app_assoc; cbn [app]; reflexivity|].
  unfold encodersOpened, passesBegun, submissions, pipelinesSet, drawCounts in *.
  rewrite !choose_app, En0, P0, S0, Pi0, D0. cbn [choose app].
  do 4 (split; [reflexivity|]).
  split; [unfold vertexCountOf; now rewrite V0|exact V0].
Qed.

(** The loop of [render] over the actors. *)
Lemma render_loop_effect (sc : Scene) (camera : ref) (passEncoder device : handle)
    (actors : list ref) :
  forall w : World,
  exists w' d,
    forOf actors (fun actor =>
      if negb (Nat.eqb actor camera)
      then renderActor sc actor camera passEncoder device
      else ret tt) w = Returned tt w' /\
    calls w' = calls w ++ d /\
    encodersOpened d = [] /\
    passesBegun d = [] /\
    submissions d = [] /\
    pipelinesSet d = map (getRenderPipeline sc) (withoutCamera actors camera) /\
    drawCounts d =
      map (fun actor => vertexCountOf (meshes w (getMesh sc actor)))
          (withoutCamera actors camera) /\
    (forall m, vertices (meshes w' m) = vertices (meshes w m)).
Proof.
  induction actors as [|actor actors IH]; intros w.
  - exists w, []. cbn. rewrite app_nil_r. repeat split; reflexivity.
  - cbn [forOf withoutCamera filter]. unfold bind at 1.
    destruct (negb (Nat.eqb actor camera)).
    + destruct (renderActor_effect sc actor camera passEncoder device w)
        as (w1 & d1 & E1 & C1 & En1 & P1 & S1 & Pi1 & D1 & V1).
      rewrite E1.
      destruct (IH w1) as (w2 & d2 & E2 & C2 & En2 & P2 & S2 & Pi2 & D2 & V2).
      exists w2, (d1 ++ d2).
      split; [exact E2|].
      split; [rewrite C2, C1; now rewrite app_assoc|].
      unfold encodersOpened, passesBegun, submissions, pipelinesSet, drawCounts in *.
      rewrite !choose_app, En1, En2, P1, P2, S1, S2, Pi1, Pi2, D1, D2.
      do 4 (split; [reflexivity|]).
      split.
      * cbn [app map]. f_equal. apply map_ext. intros a0.
        unfold vertexCountOf. now rewrite V1.
      * intros m. now rewrite V2, V1.
    + cbv [ret]. apply IH.
Qed.

(** C1.  When device, context and depth view are all present, [render]
    returns after having opened exactly one command encoder, begun exactly one
    render pass (on that encoder, clearing color and depth) and submitted
    exactly once, a single command buffer, the one finished from that
    encoder; this holds for every actor list, the empty one included.  When
    one of the three is absent, [render] returns and leaves everything as it
    was: nothing is submitted. *)
Theorem render_one_submission_when_ready (sc : Scene) (rd : WebGPURenderer)
    (actors : list ref) (camera : ref) (w : World) :
  if isReady rd
  then
    exists w' d dev ctx dv enc tex v pass cmd,
      device rd = Some dev /\ context rd = Some ctx /\ depthView rd = Some dv /\
      render sc rd actors camera w = Returned tt w' /\
      calls w' = calls w ++ d /\
      encodersOpened d = [enc] /\
      passesBegun d = [(enc, renderPassDescriptor v dv, pass)] /\
      submissions d = [(dev, [cmd])] /\
      In (GetCurrentTexture ctx tex) d /\ In (CreateView tex v) d /\
      In (EndPass pass) d /\ In (Finish enc cmd) d /\
      length (drawCounts d) = length (withoutCamera actors camera)
  else
    render sc rd actors camera w = Returned tt w.
Proof.
  unfold isReady, render.
  destruct (device rd) as [dev|], (context rd) as [ctx|], (depthView rd) as [dv|];
    try reflexivity.
  unfold getTextureView, getPassEncoder. run_monad.
  set (w0 := {| nextId := _; calls := _; meshes := _ |}).
  destruct (render_loop_effect sc camera (S (S (S (nextId w)))) dev actors w0)
    as (w1 & d1 & E1 & C1 & En1 & P1 & S1 & Pi1 & D1 & V1).
  unfold bind at 1. rewrite E1. run_monad.
  do 2 eexists. exists dev, ctx, dv, (nextId w), (S (nextId w)), (S (S (nextId w))),
    (S (S (S (nextId w)))), (nextId w1).
  do 3 (split; [reflexivity|]).
  split; [reflexivity|]. cbn [calls].
  rewrite C1. subst w0. cbn [calls].
  split; [repeat rewrite <- app_assoc; cbn [app]; reflexivity|].
  unfold encodersOpened, passesBegun, submissions, drawCounts in *.
  cbn [choose]. rewrite !choose_app, En1, P1, S1, D1. cbn [choose app].
  do 3 (split; [reflexivity|]).
  split; [right; now left|].
  split; [do 2 right; now left|].
  split; [do 4 right; apply in_or_app; right; now left|].
  split; [do 4 right; apply in_or_app; right; right; now left|].
  rewrite app_nil_r. apply length_map.
Qed.





(** C9 at the renderer as constructed, before any device is bound. *)
Lemma not_ready_render_silent_getDevice_throws_witness :
  device uninitializedRenderer = None /\
  render sampleScene uninitializedRenderer [20; 21; 22]%nat 21 sampleWorld
    = Returned tt sampleWorld /\
  getDevice uninitializedRenderer sampleWorld
    = Thrown "Error: Device not found" sampleWorld /\
  (forall rd0 w0 d w1, getDevice rd0 w0 = Returned d w1 -> device rd0 = Some d /\ w1 = w0).
Proof.
  split; [reflexivity|].
  apply (not_ready_render_silent_getDevice_throws sampleScene uninitializedRenderer
           [20; 21; 22]%nat 21 sampleWorld).
  reflexivity.
Defined.

(** ** The actor registry *)

Module ActorRegistry.
Import ActorClass.

(** No operation of the class removes or reorders what the registry holds:
    it only grows, at its end, by the actor just built. *)
Lemma exec_registry (op : Op) (s : Program) :
  actors (fst (exec op s)) =
    actors s ++ match snd (exec op s) with Some this => [this] | None => [] end /\
  (nextRef s <= nextRef (fst (exec op s)))%nat /\
  (forall this, snd (exec op s) = Some this ->
     this = nextRef s /\ (this < nextRef (fst (exec op s)))%nat).
Proof.
  destruct op; cbn; unfold update; rewrite ?app_nil_r;
    (split; [reflexivity|]); (split; [lia|]); intros this' H;
    try discriminate.
  injection H as <-. split; [reflexivity|lia].
Qed.

Lemma run_registry (ops : list Op) :
  forall s : Program,
    actors (fst (run ops s)) = actors s ++ snd (run ops s) /\
    (nextRef s <= nextRef (fst (run ops s)))%nat /\
    Forall (fun this => (nextRef s <= this)%nat) (snd (run ops s)) /\
    NoDup (snd (run ops s)).
Proof.
  induction ops as [|op ops IH]; intros s.
  - cbn. rewrite app_nil_r. repeat split; constructor.
  - cbn [run].
    destruct (exec_registry op s) as (A1 & N1 & F1).
    destruct (exec op s) as [s1 built1] eqn:E1. cbn [fst snd] in *.
    destruct (IH s1) as (A2 & N2 & F2 & D2).
    destruct (run ops s1) as [s2 built2] eqn:E2. cbn [fst snd] in *.
    destruct built1 as [this|].
    + destruct (F1 this eq_refl) as [-> Hlt].
      split; [rewrite A2, A1; now rewrite <- app_assoc|].
      split; [lia|].
      split.
      * constructor; [lia|].
        eapply Forall_impl; [|exact F2]. cbn. intros; lia.
      * constructor; [|exact D2].
        intros Hin. rewrite Forall_forall in F2. specialize (F2 _ Hin). lia.
    + split; [rewrite A2, A1; now rewrite app_nil_r|].
      split; [lia|].
      split; [|exact D2].
      eapply Forall_impl; [|exact F2]. cbn. intros; lia.
Qed.

(** C10.  The constructor appends the new actor to [Actor.actors], and
    [getActors] returns that registry: after any sequence of operations of
    the class from program start it holds the actors built, each once, in
    the order of their construction; and no operation removes anything from
    it, it only ever grows at its end. *)
Theorem registry_holds_every_actor_built :
  (forall s : Program,
     getActors (snd (constructor s)) = getActors s ++ [fst (constructor s)]) /\
  (forall ops : list Op,
     getActors (fst (run ops start)) = snd (run ops start) /\
     NoDup (getActors (fst (run ops start)))) /\
  (forall (op : Op) (s : Program),
     exists more, getActors (fst (exec op s)) = getActors s ++ more).
Proof.
  unfold getActors. split; [|split].
  - intros s. reflexivity.
  - intros ops. destruct (run_registry ops start) as (A & _ & _ & D).
    cbn [actors start app] in A. rewrite A. split; [reflexivity|exact D].
  - intros op s. destruct (exec_registry op s) as (A & _).
    eexists. exact A.
Qed.

End ActorRegistry.

(** * Further properties *)

(** ** The mesh, beyond the cache *)

Lemma push_frame (this : ref) (xs : list number) (w : World) :
  exists w', push this xs w = Returned tt w' /\
             meshes w' this =
               {| vertices := vertices (meshes w this) ++ xs;
                  vertexBuffer := vertexBuffer (meshes w this) |} /\
             (forall m, m <> this -> meshes w' m = meshes w m) /\
             calls w' = calls w /\ nextId w' = nextId w.
Proof.
  unfold push. run_monad. eexists. split; [reflexivity|].
  cbn [meshes]. rewrite Nat.eqb_refl. split; [reflexivity|].
  split; [|auto].
  intros m Hm. apply Nat.eqb_neq in Hm. now rewrite Hm.
Qed.

Lemma addVertex_frame (this : ref) (vertex : list Vertex) (w : World) :
  exists w', addVertex this vertex w = Returned tt w' /\
             meshes w' this =
               {| vertices := vertices (meshes w this) ++ flat_map flatten vertex;
                  vertexBuffer := vertexBuffer (meshes w this) |} /\
             (forall m, m <> this -> meshes w' m = meshes w m) /\
             calls w' = calls w /\ nextId w' = nextId w.
Proof.
  unfold addVertex. revert w.
  induction vertex as [|vert rest IH]; intros w.
  - exists w. cbn. rewrite app_nil_r. destruct (meshes w this). cbn. auto.
  - cbn [forOf]. unfold bind at 1. unfold bind at 1.
    destruct (push_frame this (getPosition vert) w) as (w1 & E1 & T1 & F1 & C1 & N1).
    rewrite E1. unfold bind at 1.
    destruct (push_frame this (getUV vert) w1) as (w2 & E2 & T2 & F2 & C2 & N2).
    rewrite E2.
    destruct (push_frame this (getNormal vert) w2) as (w3 & E3 & T3 & F3 & C3 & N3).
    rewrite E3.
    destruct (IH w3) as (w4 & E4 & T4 & F4 & C4 & N4).
    exists w4. split; [exact E4|].
    split.
    + rewrite T4, T3, T2, T1. cbn [vertices vertexBuffer flat_map]. unfold flatten.
      now rewrite <- !app_assoc.
    + split; [|split; congruence].
      intros m Hm. now rewrite F4, F3, F2, F1.
Qed.


(** [getVertexBuffer] in full: what it returns and the world it leaves. *)
Lemma getVertexBuffer_frame (this : ref) (device : handle) (w : World) :
  exists vb w',
    getVertexBuffer this device w = Returned vb w' /\
    meshes w' this = {| vertices := vertices (meshes w this); vertexBuffer := Some vb |} /\
    (forall m, m <> this -> meshes w' m = meshes w m) /\
    (forall vb0, vertexBuffer (meshes w this) = Some vb0 -> vb = vb0 /\ w' = w) /\
    (vertexBuffer (meshes w this) = None ->
       vb = nextId w /\ nextId w' = S (nextId w) /\
       calls w' = calls w ++
         [ CreateBuffer device (4 * length (vertices (meshes w this)))
             (Z.lor GPUBufferUsage_VERTEX GPUBufferUsage_COPY_DST) vb;
           WriteBuffer device vb 0 (vertices (meshes w this)) ]).
Proof.
  unfold getVertexBuffer, generateVertexBuffer. run_monad.
  destruct (vertexBuffer (meshes w this)) as [vb|] eqn:E.
  - exists vb, w. run_monad. split; [reflexivity|].
    split; [destruct (meshes w this); cbn in *; congruence|].
    split; [reflexivity|].
    split; [intros vb0 H; injection H as <-; auto|discriminate].
  - run_monad. do 2 eexists. split; [reflexivity|]. cbn [meshes nextId calls].
    rewrite Nat.eqb_refl. split; [reflexivity|].
    split; [intros m Hm; apply Nat.eqb_neq in Hm; now rewrite Hm|].
    split; [discriminate|]. intros _.
    split; [reflexivity|]. split; [reflexivity|].
    now rewrite <- app_assoc.
Qed.

(** X2.  [getVertexBuffer] on one mesh leaves every other mesh object as it
    was and never changes the content of any mesh; the only thing it may
    write is the cache of the mesh it is called on. *)
Theorem getVertexBuffer_touches_only_own_cache (this : ref) (device : handle) (w : World) :
  exists vb w',
    getVertexBuffer this device w = Returned vb w' /\
    (forall m, m <> this -> meshes w' m = meshes w m) /\
    (forall m, vertices (meshes w' m) = vertices (meshes w m)) /\
    vertexBuffer (meshes w' this) = Some vb.
Proof.
  destruct (getVertexBuffer_frame this device w) as (vb & w' & E & T & F & _).
  exists vb, w'. split; [exact E|]. split; [exact F|]. split.
  - intros m. destruct (Nat.eq_dec m this) as [->|Hm].
    + now rewrite T.
    + now rewrite F.
  - now rewrite T.
Qed.


Lemma length_flatten (vert : Vertex) : length (flatten vert) = 8%nat.
Proof. reflexivity. Qed.

Lemma length_flat_map_flatten (vertex : list Vertex) :
  length (flat_map flatten vertex) = (8 * length vertex)%nat.
Proof.
  induction vertex as [|vert rest IH]; [reflexivity|].
  cbn [flat_map]. rewrite length_app, IH, length_flatten. cbn [length]. lia.
Qed.

Lemma Qred_inject_Z (k : Z) : Qred (inject_Z k) = inject_Z k.
Proof.
  unfold Qred, inject_Z.
  pose proof (Z.ggcd_gcd k 1) as Hg.
  pose proof (Z.ggcd_correct_divisors k 1) as Hd.
  destruct (Z.ggcd k 1) as (g0 & p0 & q0). cbn [fst snd] in *.
  rewrite Z.gcd_1_r in Hg. subst g0. destruct Hd as [Hp Hq].
  rewrite Z.mul_1_l in Hp, Hq. subst p0 q0. reflexivity.
Qed.

Lemma js_div_eight (n : nat) :
  js_div (inject_Z (Z.of_nat (8 * n))) (3 + 2 + 3) = inject_Z (Z.of_nat n).
Proof.
  unfold js_div.
  rewrite <- (Qred_inject_Z (Z.of_nat n)).
  apply Qred_complete.
  rewrite Nat2Z.inj_mul, inject_Z_mult. change (inject_Z (Z.of_nat 8)) with 8%Q.
  field.
Qed.

(** X4.  A mesh filled only through [addVertex] keeps the stride of eight
    numbers: after [n] vertices were added to a new mesh its content holds
    [8 n] numbers, its vertex buffer is created with [32 n] bytes, and the
    vertex count that [draw] computes for it is exactly [n]. *)
Theorem buildMesh_stride (vertex : list Vertex) (device : handle) (w : World) :
  exists this vb w',
    buildMesh vertex device w = Returned (this, vb) w' /\
    vertices (meshes w' this) = flat_map flatten vertex /\
    length (vertices (meshes w' this)) = (8 * length vertex)%nat /\
    buffersCreated (calls w') = buffersCreated (calls w) ++ [((32 * length vertex)%nat, vb)] /\
    vertexCountOf (meshes w' this) = inject_Z (Z.of_nat (length vertex)).
Proof.
  unfold buildMesh, WebGPUMesh_new. run_monad.
  set (w1 := {| nextId := S (nextId w); calls := calls w; meshes := _ |}).
  assert (T1 : meshes w1 (nextId w) = {| vertices := []; vertexBuffer := None |}).
  { subst w1. cbn [meshes]. now rewrite Nat.eqb_refl. }
  unfold bind at 1.
  destruct (addVertex_frame (nextId w) vertex w1) as (w2 & E2 & T2 & _ & C2 & _).
  rewrite E2. unfold bind at 1.
  destruct (getVertexBuffer_frame (nextId w) device w2) as (vb & w3 & E3 & T3 & _ & _ & B3).
  rewrite E3. run_monad.
  rewrite T1 in T2. cbn [vertices vertexBuffer app] in T2.
  rewrite T2 in *. cbn [vertices vertexBuffer] in *.
  destruct (B3 eq_refl) as (_ & _ & C3).
  exists (nextId w), vb, w3. split; [reflexivity|].
  rewrite T3. cbn [vertices].
  split; [reflexivity|].
  split; [apply length_flat_map_flatten|].
  split.
  - rewrite C3, C2. subst w1. cbn [calls].
    unfold buffersCreated. rewrite choose_app. cbn [choose].
    rewrite length_flat_map_flatten. do 3 f_equal. lia.
  - unfold vertexCountOf. cbn [vertices].
    rewrite length_flat_map_flatten. apply js_div_eight.
Qed.



(** ** One draw *)

Lemma getVertexBuffer_calls (this : ref) (device : handle) (w : World) :
  exists vb w',
    getVertexBuffer this device w = Returned vb w' /\
    calls w' = calls w ++ vertexBufferCalls device (meshes w this) vb /\
    meshes w' this = {| vertices := vertices (meshes w this); vertexBuffer := Some vb |} /\
    (forall m, m <> this -> meshes w' m = meshes w m) /\
    (nextId w <= nextId w')%nat /\
    (forall vb0, vertexBuffer (meshes w this) = Some vb0 -> vb = vb0 /\ w' = w).
Proof.
  destruct (getVertexBuffer_frame this device w) as (vb & w' & E & T & F & Hc & Hn).
  exists vb, w'. split; [exact E|].
  unfold vertexBufferCalls.
  destruct (vertexBuffer (meshes w this)) as [vb0|].
  - destruct (Hc vb0 eq_refl) as [-> ->]. rewrite app_nil_r.
    split; [reflexivity|]. split; [exact T|]. split; [exact F|]. split; [lia|].
    intros vb1 H. injection H as <-. auto.
  - destruct (Hn eq_refl) as (_ & N & C). rewrite C, N.
    split; [reflexivity|]. split; [exact T|]. split; [exact F|]. split; [lia|].
    discriminate.
Qed.

Lemma forOf_setBindGroup (pass : handle) (groups : list handle) :
  forall w : World,
  exists w',
    forOf groups (fun bg => emit (SetBindGroup pass 0 bg)) w = Returned tt w' /\
    calls w' = calls w ++ map (SetBindGroup pass 0) groups /\
    nextId w' = nextId w /\ meshes w' = meshes w.
Proof.
  induction groups as [|bg groups IH]; intros w.
  - exists w. cbn. rewrite app_nil_r. auto.
  - cbn [forOf map]. unfold bind, emit.
    destruct (IH {| nextId := nextId w; calls := calls w ++ [SetBindGroup pass 0 bg];
                    meshes := meshes w |}) as (w' & E & C & N & Ms).
    exists w'. split; [exact E|]. cbn [calls nextId meshes] in *.
    rewrite C, <- app_assoc. auto.
Qed.

(** X6.  [draw] sets the pipeline, the vertex buffer at slot 0, then every
    bind group it is given at index 0, whatever its position in the
    argument list, and ends with one draw call whose vertex count is the
    number of floats of the mesh divided by 8.  It creates nothing and
    changes no mesh. *)
Theorem draw_binds_every_group_at_index_zero
    (passEncoder pipeline : handle) (mesh : ref) (vertexBuffer : handle)
    (uniformBindingGroups : list handle) (w : World) :
  exists w',
    draw passEncoder pipeline mesh vertexBuffer uniformBindingGroups w = Returned tt w' /\
    calls w' = calls w ++
      [ SetPipeline passEncoder pipeline; SetVertexBuffer passEncoder 0 vertexBuffer ] ++
      map (SetBindGroup passEncoder 0) uniformBindingGroups ++
      [ Draw passEncoder (vertexCountOf (meshes w mesh)) ] /\
    bindGroupsSet (map (SetBindGroup passEncoder 0) uniformBindingGroups) =
      map (fun bg => (passEncoder, 0%nat, bg)) uniformBindingGroups /\
    nextId w' = nextId w /\ meshes w' = meshes w.
Proof.
  unfold draw, getVertices. unfold bind at 1. unfold emit at 1. unfold bind at 1.
  unfold emit at 1. unfold bind at 1.
  set (w1 := {| nextId := _; calls := _; meshes := _ |}).
  destruct (forOf_setBindGroup passEncoder uniformBindingGroups w1) as (w2 & E & C & N & Ms).
  rewrite E. run_monad. eexists. split; [reflexivity|]. cbn [calls nextId meshes].
  rewrite C, N, Ms. subst w1. cbn [calls nextId meshes].
  split; [now rewrite <- !app_assoc|].
  split; [|auto].
  clear. unfold bindGroupsSet.
  induction uniformBindingGroups as [|bg l IH]; [reflexivity|].
  cbn [map choose]. now rewrite IH.
Qed.

Lemma renderActor_full (sc : Scene) (actor camera : ref) (passEncoder device : handle)
    (w : World) :
  exists vb w' b1 b2 b3 layout bg,
    renderActor sc actor camera passEncoder device w = Returned tt w' /\
    calls w' = calls w ++
      vertexBufferCalls device (meshes w (getMesh sc actor)) vb ++
      [ CreateBuffer device (4 * length (getTransformationMatrix sc actor))
          (Z.lor GPUBufferUsage_UNIFORM GPUBufferUsage_COPY_DST) b1;
        WriteBuffer device b1 0 (getTransformationMatrix sc actor);
        CreateBuffer device (4 * length (getViewTransformationMatrix sc camera))
          (Z.lor GPUBufferUsage_UNIFORM GPUBufferUsage_COPY_DST) b2;
        WriteBuffer device b2 0 (getViewTransformationMatrix sc camera);
        CreateBuffer device (4 * length (getRotationMatrix sc actor))
          (Z.lor GPUBufferUsage_UNIFORM GPUBufferUsage_COPY_DST) b3;
        WriteBuffer device b3 0 (getRotationMatrix sc actor);
        GetBindGroupLayout (getRenderPipeline sc actor) 0 layout;
        CreateBindGroup device layout
          [ {| binding := 0; resource := BufferBinding b1 |};
            {| binding := 1; resource := BufferBinding b2 |};
            {| binding := 2; resource := BufferBinding (getProjectionBuffer sc camera) |};
            {| binding := 3; resource := BufferBinding b3 |} ] bg;
        SetPipeline passEncoder (getRenderPipeline sc actor);
        SetVertexBuffer passEncoder 0 vb;
        SetBindGroup passEncoder 0 bg;
        Draw passEncoder (vertexCountOf (meshes w (getMesh sc actor))) ] /\
    (nextId w <= b1 /\ b1 < b2 /\ b2 < b3 /\ b3 < layout /\ layout < bg /\ bg < nextId w')%nat /\
    meshes w' (getMesh sc actor) =
      {| vertices := vertices (meshes w (getMesh sc actor)); vertexBuffer := Some vb |} /\
    (forall m, m <> getMesh sc actor -> meshes w' m = meshes w m) /\
    (forall vb0, vertexBuffer (meshes w (getMesh sc actor)) = Some vb0 -> vb = vb0).
Proof.
  unfold renderActor. unfold bind at 1.
  destruct (getVertexBuffer_calls (getMesh sc actor) device w)
    as (vb & w1 & E & C & T & F & N & Hc).
  rewrite E.
  unfold toUniformGPUBuffer, setupUniformBindGroup, draw, getVertices, getActorPipeline.
  cbn [pushEntries getBindGroupEntryResource forOf]. run_monad.
  rewrite T. cbn [vertices vertexBuffer].
  exists vb. eexists.
  exists (nextId w1), (S (nextId w1)), (S (S (nextId w1))), (S (S (S (nextId w1)))),
    (S (S (S (S (nextId w1))))).
  split; [reflexivity|]. cbn [calls meshes nextId].
  split; [rewrite C; repeat rewrite <- app_assoc; cbn [app]; reflexivity|].
  split; [lia|]. split; [exact T|]. split; [exact F|].
  intros vb0 H. now destruct (Hc vb0 H).
Qed.

(** X7.  One [renderActor], call by call: after the vertex buffer of the
    actor's mesh was obtained, three uniform buffers are created and filled,
    one for the actor's transformation matrix, one for the camera's view
    matrix and one for the actor's rotation matrix; a bind group is created
    on the layout of group 0 of the actor's pipeline, with these at slots 0, 1
    and 3 and the camera's own projection buffer at slot 2; then pipeline,
    vertex buffer and bind group are set on the pass and one draw is issued.
    The five objects created are new and distinct. *)
Theorem renderActor_calls (sc : Scene) (actor camera : ref) (passEncoder device : handle)
    (w : World) :
  exists vb w' b1 b2 b3 layout bg,
    renderActor sc actor camera passEncoder device w = Returned tt w' /\
    calls w' = calls w ++
      vertexBufferCalls device (meshes w (getMesh sc actor)) vb ++
      [ CreateBuffer device (4 * length (getTransformationMatrix sc actor))
          (Z.lor GPUBufferUsage_UNIFORM GPUBufferUsage_COPY_DST) b1;
        WriteBuffer device b1 0 (getTransformationMatrix sc actor);
        CreateBuffer device (4 * length (getViewTransformationMatrix sc camera))
          (Z.lor GPUBufferUsage_UNIFORM GPUBufferUsage_COPY_DST) b2;
        WriteBuffer device b2 0 (getViewTransformationMatrix sc camera);
        CreateBuffer device (4 * length (getRotationMatrix sc actor))
          (Z.lor GPUBufferUsage_UNIFORM GPUBufferUsage_COPY_DST) b3;
        WriteBuffer device b3 0 (getRotationMatrix sc actor);
        GetBindGroupLayout (getRenderPipeline sc actor) 0 layout;
        CreateBindGroup device layout
          [ {| binding := 0; resource := BufferBinding b1 |};
            {| binding := 1; resource := BufferBinding b2 |};
            {| binding := 2; resource := BufferBinding (getProjectionBuffer sc camera) |};
            {| binding := 3; resource := BufferBinding b3 |} ] bg;
        SetPipeline passEncoder (getRenderPipeline sc actor);
        SetVertexBuffer passEncoder 0 vb;
        SetBindGroup passEncoder 0 bg;
        Draw passEncoder (vertexCountOf (meshes w (getMesh sc actor))) ] /\
    vertexBuffer (meshes w' (getMesh sc actor)) = Some vb /\
    (nextId w <= b1 /\ b1 < b2 /\ b2 < b3 /\ b3 < layout /\ layout < bg /\ bg < nextId w')%nat.
Proof.
  destruct (renderActor_full sc actor camera passEncoder device w)
    as (vb & w' & b1 & b2 & b3 & layout & bg & E & C & N & T & _).
  exists vb, w', b1, b2, b3, layout, bg.
  split; [exact E|]. split; [exact C|]. split; [now rewrite T|exact N].
Qed.

(** ** The bind-group builder, its views *)

Lemma pushEntries_views (rest : list Resource) :
  forall (i : nat) (entries : list GPUBindGroupEntry) (w : World),
  exists es w' d,
    pushEntries i rest entries w = Returned (entries ++ es) w' /\
    calls w' = calls w ++ d /\
    d = map (fun tv => CreateView (fst tv) (snd tv))
          (combine (texturesOf rest) (seq (nextId w) (length (texturesOf rest)))) /\
    nextId w' = (nextId w + length (texturesOf rest))%nat /\
    meshes w' = meshes w.
Proof.
  induction rest as [|entry rest IH]; intros i entries w.
  - exists [], w, []. cbn. rewrite !app_nil_r, Nat.add_0_r. auto.
  - cbn [pushEntries]. unfold bind at 1.
    destruct entry as [h|t|s|o]; cbn [getBindGroupEntryResource]; run_monad.
    + destruct (IH (S i) (entries ++ [ {| binding := i; resource := BufferBinding h |} ]) w)
        as (es & w' & d & E & C & D & N & Ms).
      exists ({| binding := i; resource := BufferBinding h |} :: es), w', d.
      rewrite E, <- app_assoc. auto.
    + set (w1 := {| nextId := _; calls := _; meshes := _ |}).
      destruct (IH (S i) (entries ++ [ {| binding := i; resource := TextureView (nextId w) |} ]) w1)
        as (es & w' & d & E & C & D & N & Ms).
      exists ({| binding := i; resource := TextureView (nextId w) |} :: es), w',
        (CreateView t (nextId w) :: d).
      rewrite E, <- app_assoc. subst w1. cbn [calls nextId meshes] in *.
      split; [reflexivity|].
      split; [rewrite C, <- app_assoc; reflexivity|].
      split; [unfold texturesOf in *; cbn [choose length seq combine map fst snd]; now rewrite D|].
      split; [unfold texturesOf in *; cbn [choose length]; lia|exact Ms].
    + destruct (IH (S i)
                  (entries ++ [ {| binding := i; resource := PassedThrough (IsGPUSampler s) |} ])
                  w)
        as (es & w' & d & E & C & D & N & Ms).
      exists ({| binding := i; resource := PassedThrough (IsGPUSampler s) |} :: es), w', d.
      rewrite E, <- app_assoc. auto.
    + destruct (IH (S i)
                  (entries ++ [ {| binding := i; resource := PassedThrough (IsOtherObject o) |} ])
                  w)
        as (es & w' & d & E & C & D & N & Ms).
      exists ({| binding := i; resource := PassedThrough (IsOtherObject o) |} :: es), w', d.
      rewrite E, <- app_assoc. auto.
Qed.

(** X8.  The builder creates one view per texture resource, in the order of
    the resources, each view a new object different from the others, then asks
    the pipeline for the layout of the group and creates the bind group: these
    are all the GPU calls it makes, so a list without textures costs exactly
    two calls.  It touches no mesh. *)
Theorem setupUniformBindGroup_views (device pipeline : handle) (bindingIndex : nat)
    (buffers : list Resource) (w : World) :
  exists bg w' layout entries views,
    setupUniformBindGroup device pipeline bindingIndex buffers w = Returned bg w' /\
    calls w' = calls w ++
      map (fun tv => CreateView (fst tv) (snd tv)) (combine (texturesOf buffers) views) ++
      [ GetBindGroupLayout pipeline bindingIndex layout;
        CreateBindGroup device layout entries bg ] /\
    length views = length (texturesOf buffers) /\
    NoDup (views ++ [layout; bg]) /\
    Forall (fun v => (nextId w <= v < nextId w')%nat) (views ++ [layout; bg]) /\
    meshes w' = meshes w.
Proof.
  unfold setupUniformBindGroup. unfold bind at 1.
  destruct (pushEntries_views buffers 0 [] w) as (es & w1 & d & E & C & D & N & Ms).
  rewrite E. cbn [app]. run_monad.
  exists (S (nextId w1)). eexists.
  exists (nextId w1), es, (seq (nextId w) (length (texturesOf buffers))).
  split; [reflexivity|]. cbn [calls nextId meshes].
  split; [rewrite C, D; now rewrite <- !app_assoc|].
  split; [apply length_seq|].
  rewrite N.
  assert (Hs : forall k : nat, [k; S k] = seq k 2) by reflexivity.
  rewrite Hs, <- seq_app.
  split; [apply seq_NoDup|].
  split; [|exact Ms].
  apply Forall_forall. intros v Hv. apply in_seq in Hv. lia.
Qed.

(** ** One frame, in full *)

Lemma vertexBufferCalls_recorded (device pass : handle) (m : WebGPUMesh) (vb : handle) :
  Forall (recordedOn pass) (vertexBufferCalls device m vb).
Proof.
  unfold vertexBufferCalls. destruct (vertexBuffer m); repeat constructor.
Qed.

(** What [renderActor] records and what it does to the meshes. *)
Lemma renderActor_recorded (sc : Scene) (actor camera : ref) (passEncoder device : handle)
    (w : World) :
  exists w' d,
    renderActor sc actor camera passEncoder device w = Returned tt w' /\
    calls w' = calls w ++ d /\
    Forall (recordedOn passEncoder) d /\
    (forall m, cached w m -> meshes w' m = meshes w m) /\
    (forall m, vertices (meshes w' m) = vertices (meshes w m)) /\
    cached w' (getMesh sc actor) /\
    (cached w (getMesh sc actor) ->
       length (buffersCreated d) = 3%nat /\
       Forall (fun b => snd (fst b) = Z.lor GPUBufferUsage_UNIFORM GPUBufferUsage_COPY_DST)
         (buffersCreatedWith d)).
Proof.
  destruct (renderActor_full sc actor camera passEncoder device w)
    as (vb & w' & b1 & b2 & b3 & layout & bg & E & C & N & T & F & Hc).
  eexists w', _. split; [exact E|]. split; [exact C|].
  split.
  { apply Forall_app. split; [apply vertexBufferCalls_recorded|].
    repeat constructor. }
  split.
  { intros m Hm. destruct (Nat.eq_dec m (getMesh sc actor)) as [->|Hne]; [|now apply F].
    unfold cached in Hm. rewrite T.
    destruct (meshes w (getMesh sc actor)) as [vs [vb0|]] eqn:Em; cbn in *; [|congruence].
    now rewrite (Hc vb0 eq_refl). }
  split.
  { intros m. destruct (Nat.eq_dec m (getMesh sc actor)) as [->|Hne].
    - now rewrite T.
    - now rewrite F. }
  split.
  { unfold cached. rewrite T. discriminate. }
  intros Hm. unfold cached, vertexBufferCalls in *.
  destruct (vertexBuffer (meshes w (getMesh sc actor))); [|congruence].
  cbn [app]. split; [reflexivity|]. repeat constructor.
Qed.

Lemma render_loop_recorded (sc : Scene) (camera : ref) (passEncoder device : handle)
    (actors : list ref) :
  forall w : World,
  exists w' d,
    forOf actors (fun actor =>
      if negb (Nat.eqb actor camera)
      then renderActor sc actor camera passEncoder device
      else ret tt) w = Returned tt w' /\
    calls w' = calls w ++ d /\
    Forall (recordedOn passEncoder) d /\
    (forall m, cached w m -> meshes w' m = meshes w m) /\
    (forall m, vertices (meshes w' m) = vertices (meshes w m)) /\
    (forall actor, In actor (withoutCamera actors camera) -> cached w' (getMesh sc actor)) /\
    (Forall (fun actor => cached w (getMesh sc actor)) (withoutCamera actors camera) ->
       length (buffersCreated d) = (3 * length (withoutCamera actors camera))%nat /\
       Forall (fun b => snd (fst b) = Z.lor GPUBufferUsage_UNIFORM GPUBufferUsage_COPY_DST)
         (buffersCreatedWith d) /\
       (forall m, meshes w' m = meshes w m)) /\
    (withoutCamera actors camera = [] -> d = [] /\ w' = w).
Proof.
  induction actors as [|actor actors IH]; intros w.
  - exists w, []. cbn. rewrite app_nil_r.
    repeat split; auto; intros; contradiction.
  - cbn [forOf withoutCamera filter]. unfold bind at 1.
    destruct (negb (Nat.eqb actor camera)).
    + destruct (renderActor_recorded sc actor camera passEncoder device w)
        as (w1 & d1 & E1 & C1 & R1 & K1 & V1 & W1 & S1).
      rewrite E1.
      destruct (IH w1) as (w2 & d2 & E2 & C2 & R2 & K2 & V2 & W2 & S2 & _).
      assert (Keep : forall m, cached w m -> cached w1 m).
      { intros m Hm. unfold cached. now rewrite (K1 m Hm). }
      exists w2, (d1 ++ d2).
      split; [exact E2|].
      split; [rewrite C2, C1; now rewrite app_assoc|].
      split; [apply Forall_app; now split|].
      split; [intros m Hm; rewrite (K2 m (Keep m Hm)); now apply K1|].
      split; [intros m; now rewrite V2, V1|].
      split.
      { intros a0 [<-|Hin]; [|now apply W2].
        unfold cached. rewrite (K2 _ W1). exact W1. }
      split; [|discriminate].
      intros Hall. inversion Hall as [|a0 l0 Hhead Htail]; subst.
      destruct (S1 Hhead) as [L1 U1].
      assert (Htail1 : Forall (fun a0 => cached w1 (getMesh sc a0))
                         (withoutCamera actors camera)).
      { eapply Forall_impl; [|exact Htail]. intros a0 Ha. now apply Keep. }
      destruct (S2 Htail1) as (L2 & U2 & M2).
      unfold buffersCreated, buffersCreatedWith in *.
      rewrite !choose_app, length_app, L1, L2.
      fold (withoutCamera actors camera).
      split; [cbn [length]; lia|].
      split; [apply Forall_app; now split|].
      intros m. rewrite M2.
      destruct (Nat.eq_dec m (getMesh sc actor)) as [->|Hne]; [now apply K1|].
      destruct (renderActor_full sc actor camera passEncoder device w)
        as (vb & w1' & b1 & b2 & b3 & layout & bg & E1' & _ & _ & _ & F1 & _).
      rewrite E1 in E1'. injection E1' as <-. now apply F1.
    + cbv [ret]. apply IH.
Qed.

(** The frame of a Ready renderer. *)
Lemma render_frame (sc : Scene) (rd : WebGPURenderer) (actors : list ref) (camera : ref)
    (dev ctx dv : handle) (w : World) :
  device rd = Some dev -> context rd = Some ctx -> depthView rd = Some dv ->
  exists w' body,
    render sc rd actors camera w = Returned tt w' /\
    calls w' = calls w ++
      [ CreateCommandEncoder dev (nextId w);
        GetCurrentTexture ctx (S (nextId w));
        CreateView (S (nextId w)) (S (S (nextId w)));
        BeginRenderPass (nextId w) (renderPassDescriptor (S (S (nextId w))) dv)
          (S (S (S (nextId w)))) ] ++
      body ++
      [ EndPass (S (S (S (nextId w))));
        Finish (nextId w) (nextId w' - 1);
        Submit dev [(nextId w' - 1)%nat] ] /\
    Forall (recordedOn (S (S (S (nextId w))))) body /\
    (forall m, cached w m -> meshes w' m = meshes w m) /\
    (forall m, vertices (meshes w' m) = vertices (meshes w m)) /\
    (forall actor, In actor (withoutCamera actors camera) -> cached w' (getMesh sc actor)) /\
    (Forall (fun actor => cached w (getMesh sc actor)) (withoutCamera actors camera) ->
       length (buffersCreated body) = (3 * length (withoutCamera actors camera))%nat /\
       Forall (fun b => snd (fst b) = Z.lor GPUBufferUsage_UNIFORM GPUBufferUsage_COPY_DST)
         (buffersCreatedWith body) /\
       (forall m, meshes w' m = meshes w m)) /\
    (withoutCamera actors camera = [] -> body = [] /\ nextId w' = (nextId w + 5)%nat).
Proof.
  intros Ed Ec Ev. unfold render. rewrite Ed, Ec, Ev.
  unfold getTextureView, getPassEncoder. run_monad.
  set (w0 := {| nextId := _; calls := _; meshes := _ |}).
  destruct (render_loop_recorded sc camera (S (S (S (nextId w)))) dev actors w0)
    as (w1 & d1 & E1 & C1 & R1 & K1 & V1 & W1 & S1 & Z1).
  unfold bind at 1. rewrite E1. run_monad.
  eexists _, d1. split; [reflexivity|]. cbn [calls nextId meshes].
  subst w0. cbn [calls nextId meshes] in *.
  replace (S (nextId w1) - 1)%nat with (nextId w1) by lia.
  split; [rewrite C1; repeat rewrite <- app_assoc; cbn [app]; reflexivity|].
  split; [exact R1|]. split; [exact K1|]. split; [exact V1|]. split; [exact W1|].
  split; [exact S1|].
  intros Hnil. destruct (Z1 Hnil) as [-> ->]. cbn [nextId]. split; [reflexivity|lia].
Qed.

(** X9.  A frame is well bracketed: the calls of a Ready [render] are the
    opening of one encoder, the acquisition of the current texture of the
    context and of a view of it, the beginning of one pass, then what the
    actors record, then the end of that pass, the finishing of the encoder and
    the submission of its command buffer.  In between, only uploads and
    bind-group creation happen and every pipeline, vertex buffer, bind group
    and draw is recorded on the frame's own pass: no other pass or encoder is
    opened and nothing is submitted early. *)
Theorem render_frame_bracketed (sc : Scene) (rd : WebGPURenderer) (actors : list ref)
    (camera : ref) (dev ctx dv : handle) (w : World) :
  device rd = Some dev -> context rd = Some ctx -> depthView rd = Some dv ->
  exists w' enc tex v pass cmd body,
    render sc rd actors camera w = Returned tt w' /\
    calls w' = calls w ++
      [ CreateCommandEncoder dev enc; GetCurrentTexture ctx tex; CreateView tex v;
        BeginRenderPass enc (renderPassDescriptor v dv) pass ] ++
      body ++
      [ EndPass pass; Finish enc cmd; Submit dev [cmd] ] /\
    Forall (recordedOn pass) body.
Proof.
  intros Ed Ec Ev.
  destruct (render_frame sc rd actors camera w Ed Ec Ev) as (w' & body & E & C & R & _).
  exists w', (nextId w), (S (nextId w)), (S (S (nextId w))), (S (S (S (nextId w)))),
    (nextId w' - 1)%nat, body.
  auto.
Qed.

Lemma render_frame_bracketed_witness :
  device readyRenderer = Some 5%nat /\ context readyRenderer = Some 6%nat /\
  depthView readyRenderer = Some 9%nat /\
  exists w' enc tex v pass cmd body,
    render sampleScene readyRenderer [20; 21; 22]%nat 21 sampleWorld = Returned tt w' /\
    calls w' = calls sampleWorld ++
      [ CreateCommandEncoder 5 enc; GetCurrentTexture 6 tex; CreateView tex v;
        BeginRenderPass enc (renderPassDescriptor v 9) pass ] ++
      body ++
      [ EndPass pass; Finish enc cmd; Submit 5 [cmd] ] /\
    Forall (recordedOn pass) body.
Proof.
  do 3 (split; [reflexivity|]).
  apply (render_frame_bracketed sampleScene readyRenderer [20; 21; 22]%nat 21
           (dev := 5) (ctx := 6) (dv := 9) sampleWorld); reflexivity.
Defined.

(** X10.  A frame warms the caches and spares them: after a Ready [render]
    the mesh of every actor drawn has a cached vertex buffer, a mesh that
    had one before is exactly as it was (the same buffer), and no mesh content
    has changed. *)
Theorem render_warms_and_keeps_caches (sc : Scene) (rd : WebGPURenderer)
    (actors : list ref) (camera : ref) (dev ctx dv : handle) (w : World) :
  device rd = Some dev -> context rd = Some ctx -> depthView rd = Some dv ->
  exists w',
    render sc rd actors camera w = Returned tt w' /\
    (forall actor, In actor actors -> actor <> camera -> cached w' (getMesh sc actor)) /\
    (forall m, cached w m -> meshes w' m = meshes w m) /\
    (forall m, vertices (meshes w' m) = vertices (meshes w m)).
Proof.
  intros Ed Ec Ev.
  destruct (render_frame sc rd actors camera w Ed Ec Ev)
    as (w' & body & E & _ & _ & K & V & W & _).
  exists w'. split; [exact E|]. split; [|auto].
  intros actor Hin Hne. apply W. unfold withoutCamera. apply filter_In.
  split; [exact Hin|]. apply Nat.eqb_neq in Hne. now rewrite Hne.
Qed.

Lemma render_warms_and_keeps_caches_witness :
  device readyRenderer = Some 5%nat /\ context readyRenderer = Some 6%nat /\
  depthView readyRenderer = Some 9%nat /\
  exists w',
    render sampleScene readyRenderer [20; 21; 22]%nat 21 sampleWorld = Returned tt w' /\
    (forall actor, In actor [20; 21; 22]%nat -> actor <> 21%nat ->
       cached w' (getMesh sampleScene actor)) /\
    (forall m, cached sampleWorld m -> meshes w' m = meshes sampleWorld m) /\
    (forall m, vertices (meshes w' m) = vertices (meshes sampleWorld m)).
Proof.
  do 3 (split; [reflexivity|]).
  apply (render_warms_and_keeps_caches sampleScene readyRenderer [20; 21; 22]%nat 21
           (dev := 5) (ctx := 6) (dv := 9) sampleWorld); reflexivity.
Defined.

Lemma buffersCreated_frame (h body f : list GPUCall) :
  buffersCreated h = [] -> buffersCreated f = [] ->
  buffersCreated (h ++ body ++ f) = buffersCreated body.
Proof.
  unfold buffersCreated. intros Hh Hf.
  now rewrite !choose_app, Hh, Hf, app_nil_r.
Qed.

(** X11.  From the second frame on the cost of a frame is fixed: when the
    same actors are rendered again, the second [render] creates no vertex
    buffer at all, only three uniform buffers per actor drawn, and leaves
    every mesh as the first frame left it. *)
Theorem render_second_frame_allocations (sc : Scene) (rd : WebGPURenderer)
    (actors : list ref) (camera : ref) (dev ctx dv : handle) (w : World) :
  device rd = Some dev -> context rd = Some ctx -> depthView rd = Some dv ->
  exists w1 w2 d,
    render sc rd actors camera w = Returned tt w1 /\
    render sc rd actors camera w1 = Returned tt w2 /\
    calls w2 = calls w1 ++ d /\
    length (buffersCreated d) = (3 * length (withoutCamera actors camera))%nat /\
    Forall (fun b => snd (fst b) = Z.lor GPUBufferUsage_UNIFORM GPUBufferUsage_COPY_DST)
      (buffersCreatedWith d) /\
    (forall m, meshes w2 m = meshes w1 m).
Proof.
  intros Ed Ec Ev.
  destruct (render_frame sc rd actors camera w Ed Ec Ev)
    as (w1 & body1 & E1 & _ & _ & _ & _ & W1 & _).
  destruct (render_frame sc rd actors camera w1 Ed Ec Ev)
    as (w2 & body2 & E2 & C2 & _ & _ & _ & _ & S2 & _).
  assert (Hall : Forall (fun actor => cached w1 (getMesh sc actor))
                   (withoutCamera actors camera)).
  { apply Forall_forall. exact W1. }
  destruct (S2 Hall) as (L2 & U2 & M2).
  exists w1, w2. eexists. split; [exact E1|]. split; [exact E2|].
  split; [exact C2|].
  split; [rewrite buffersCreated_frame; [exact L2|reflexivity|reflexivity]|].
  split; [|exact M2].
  unfold buffersCreatedWith in *. rewrite !choose_app. cbn [choose app].
  now rewrite app_nil_r.
Qed.

Lemma render_second_frame_allocations_witness :
  device readyRenderer = Some 5%nat /\ context readyRenderer = Some 6%nat /\
  depthView readyRenderer = Some 9%nat /\
  exists w1 w2 d,
    render sampleScene readyRenderer [20; 21; 22]%nat 21 sampleWorld = Returned tt w1 /\
    render sampleScene readyRenderer [20; 21; 22]%nat 21 w1 = Returned tt w2 /\
    calls w2 = calls w1 ++ d /\
    length (buffersCreated d) = (3 * length (withoutCamera [20; 21; 22]%nat 21))%nat /\
    Forall (fun b => snd (fst b) = Z.lor GPUBufferUsage_UNIFORM GPUBufferUsage_COPY_DST)
      (buffersCreatedWith d) /\
    (forall m, meshes w2 m = meshes w1 m).
Proof.
  do 3 (split; [reflexivity|]).
  apply (render_second_frame_allocations sampleScene readyRenderer [20; 21; 22]%nat 21
           (dev := 5) (ctx := 6) (dv := 9) sampleWorld); reflexivity.
Defined.

(** X12.  A frame with nothing to draw (an empty actor list, or a list that
    holds only the camera) still clears and presents: its calls are exactly
    one encoder, the current texture and its view, one pass clearing color to
    (0.09, 0.09, 0.09, 1) and depth to 1 with stores, the end of the pass, the
    finish and the submission; there is no draw and no mesh is touched. *)
Theorem render_nothing_to_draw (sc : Scene) (rd : WebGPURenderer) (actors : list ref)
    (camera : ref) (dev ctx dv : handle) (w : World) :
  device rd = Some dev -> context rd = Some ctx -> depthView rd = Some dv ->
  Forall (fun actor => actor = camera) actors ->
  exists w' enc tex v pass cmd,
    render sc rd actors camera w = Returned tt w' /\
    calls w' = calls w ++
      [ CreateCommandEncoder dev enc;
        GetCurrentTexture ctx tex;
        CreateView tex v;
        BeginRenderPass enc
          {| colorAttachments :=
               [ {| view := v;
                    clearValue := {| r := 9 # 100; g := 9 # 100; b := 9 # 100; a := 1 |};
                    loadOp := LoadOp_clear; storeOp := StoreOp_store |} ];
             depthStencilAttachment :=
               {| depth_view := dv; depthClearValue := 1;
                  depthLoadOp := LoadOp_clear; depthStoreOp := StoreOp_store |} |}
          pass;
        EndPass pass;
        Finish enc cmd;
        Submit dev [cmd] ] /\
    (forall m, meshes w' m = meshes w m).
Proof.
  intros Ed Ec Ev Hall.
  assert (Hnil : withoutCamera actors camera = []).
  { unfold withoutCamera. induction Hall as [|a0 l Ha _ IH]; [reflexivity|].
    cbn [filter]. subst a0. now rewrite Nat.eqb_refl. }
  destruct (render_frame sc rd actors camera w Ed Ec Ev)
    as (w' & body & E & C & _ & _ & _ & _ & St & Z).
  destruct (Z Hnil) as [-> N].
  rewrite Hnil in St. destruct (St (Forall_nil _)) as (_ & _ & M).
  exists w', (nextId w), (S (nextId w)), (S (S (nextId w))), (S (S (S (nextId w)))),
    (nextId w' - 1)%nat.
  split; [exact E|]. split; [exact C|exact M].
Qed.

Lemma render_nothing_to_draw_witness :
  device readyRenderer = Some 5%nat /\ context readyRenderer = Some 6%nat /\
  depthView readyRenderer = Some 9%nat /\
  Forall (fun actor => actor = 21%nat) [21; 21]%nat /\
  exists w' enc tex v pass cmd,
    render sampleScene readyRenderer [21; 21]%nat 21 sampleWorld = Returned tt w' /\
    calls w' = calls sampleWorld ++
      [ CreateCommandEncoder 5 enc;
        GetCurrentTexture 6 tex;
        CreateView tex v;
        BeginRenderPass enc
          {| colorAttachments :=
               [ {| view := v;
                    clearValue := {| r := 9 # 100; g := 9 # 100; b := 9 # 100; a := 1 |};
                    loadOp := LoadOp_clear; storeOp := StoreOp_store |} ];
             depthStencilAttachment :=
               {| depth_view := 9; depthClearValue := 1;
                  depthLoadOp := LoadOp_clear; depthStoreOp := StoreOp_store |} |}
          pass;
        EndPass pass;
        Finish enc cmd;
        Submit 5 [cmd] ] /\
    (forall m, meshes w' m = meshes sampleWorld m).
Proof.
  do 3 (split; [reflexivity|]).
  split; [repeat constructor|].
  apply (render_nothing_to_draw sampleScene readyRenderer (actors := [21; 21]%nat)
           (camera := 21) (dev := 5) (ctx := 6) (dv := 9) sampleWorld);
    [reflexivity|reflexivity|reflexivity|repeat constructor].
Defined.

(** ** The post-processing pass *)

Lemma renderPostProcessing_full (rd : WebGPURenderer)
    (device context depthView pipeline frameTexture sampler : handle) (w : World) :
  exists w' enc tex v pass tv layout bg vb cmd,
    renderPostProcessing rd device context depthView pipeline frameTexture sampler w
      = Returned tt w' /\
    calls w' = calls w ++
      [ CreateCommandEncoder device enc;
        GetCurrentTexture context tex;
        CreateView tex v;
        BeginRenderPass enc (renderPassDescriptor v depthView) pass;
        CreateView frameTexture tv;
        GetBindGroupLayout pipeline 0 layout;
        CreateBindGroup device layout
          [ {| binding := 0; resource := TextureView tv |};
            {| binding := 1; resource := PassedThrough (IsGPUSampler sampler) |} ] bg ] ++
      vertexBufferCalls device (meshes w (quadMesh rd)) vb ++
      [ SetPipeline pass pipeline;
        SetVertexBuffer pass 0 vb;
        SetBindGroup pass 0 bg;
        Draw pass (vertexCountOf (meshes w (quadMesh rd)));
        EndPass pass;
        Finish enc cmd;
        Submit device [cmd] ] /\
    meshes w' (quadMesh rd) =
      {| vertices := vertices (meshes w (quadMesh rd)); vertexBuffer := Some vb |} /\
    (forall m, m <> quadMesh rd -> meshes w' m = meshes w m).
Proof.
  unfold renderPostProcessing, getTextureView, getPassEncoder, setupUniformBindGroup.
  cbn [pushEntries getBindGroupEntryResource]. run_monad.
  set (w0 := {| nextId := _; calls := _; meshes := _ |}).
  unfold bind at 1.
  destruct (getVertexBuffer_calls (quadMesh rd) device w0)
    as (vb & w1 & E & C & T & F & N & _).
  rewrite E. unfold draw, getVertices. cbn [forOf]. run_monad.
  subst w0. cbn [calls nextId meshes] in *.
  rewrite T. cbn [vertices].
  eexists.
  exists (nextId w), (S (nextId w)), (S (S (nextId w))), (S (S (S (nextId w)))),
    (S (S (S (S (nextId w))))), (S (S (S (S (S (nextId w)))))),
    (S (S (S (S (S (S (nextId w))))))), vb, (nextId w1).
  split; [reflexivity|]. cbn [calls nextId meshes].
  split; [rewrite C; repeat rewrite <- app_assoc; cbn [app]; reflexivity|].
  split; [exact T|exact F].
Qed.

(** The quad mesh as [setupQuadMesh] leaves it. *)
Lemma setupQuadMesh_quad (defaultUV : number * number) (defaultNormal : Vector3) (w : World) :
  exists quad w',
    setupQuadMesh defaultUV defaultNormal w = Returned quad w' /\
    vertices (meshes w' quad) =
      flat_map flatten
        [ Vertex_new defaultUV defaultNormal (Vector3_new (-1) 1 0);
          Vertex_new defaultUV defaultNormal (Vector3_new (-1) (-1) 0);
          Vertex_new defaultUV defaultNormal (Vector3_new 1 (-1) 0);
          Vertex_new defaultUV defaultNormal (Vector3_new (-1) 1 0);
          Vertex_new defaultUV defaultNormal (Vector3_new 1 1 0);
          Vertex_new defaultUV defaultNormal (Vector3_new 1 (-1) 0) ] /\
    vertexBuffer (meshes w' quad) = None /\
    calls w' = calls w.
Proof.
  unfold setupQuadMesh, WebGPUMesh_new.
  set (vs := [Vertex_new _ _ _; _; _; _; _; _]).
  run_monad.
  set (w1 := {| nextId := S (nextId w); calls := calls w; meshes := _ |}).
  destruct (addVertex_frame (nextId w) vs w1) as (w2 & E & T & _ & C & _).
  unfold bind. rewrite E. exists (nextId w), w2. split; [reflexivity|].
  rewrite T, C. subst w1. cbn [meshes calls]. rewrite Nat.eqb_refl.
  cbn [vertices vertexBuffer app]. auto.
Qed.

(** X13.  The post-processing pass, call by call: one encoder, the current
    texture of the given context and its view, one pass with the same clear
    policy as a scene frame, a view created for the frame texture, a bind
    group on group 0 of the pipeline with exactly two entries (that view at
    slot 0 and the sampler, passed as it is, at slot 1), the vertex buffer of
    the quad mesh (built if not cached), one draw of the quad mesh, the end of
    the pass and one submission. *)
Theorem renderPostProcessing_calls (rd : WebGPURenderer)
    (device context depthView pipeline frameTexture sampler : handle) (w : World) :
  exists w' enc tex v pass tv layout bg vb cmd,
    renderPostProcessing rd device context depthView pipeline frameTexture sampler w
      = Returned tt w' /\
    calls w' = calls w ++
      [ CreateCommandEncoder device enc;
        GetCurrentTexture context tex;
        CreateView tex v;
        BeginRenderPass enc (renderPassDescriptor v depthView) pass;
        CreateView frameTexture tv;
        GetBindGroupLayout pipeline 0 layout;
        CreateBindGroup device layout
          [ {| binding := 0; resource := TextureView tv |};
            {| binding := 1; resource := PassedThrough (IsGPUSampler sampler) |} ] bg ] ++
      vertexBufferCalls device (meshes w (quadMesh rd)) vb ++
      [ SetPipeline pass pipeline;
        SetVertexBuffer pass 0 vb;
        SetBindGroup pass 0 bg;
        Draw pass (vertexCountOf (meshes w (quadMesh rd)));
        EndPass pass;
        Finish enc cmd;
        Submit device [cmd] ] /\
    vertexBuffer (meshes w' (quadMesh rd)) = Some vb.
Proof.
  destruct (renderPostProcessing_full rd device context depthView pipeline frameTexture
              sampler w)
    as (w' & enc & tex & v & pass & tv & layout & bg & vb & cmd & E & C & T & _).
  exists w', enc, tex, v, pass, tv, layout, bg, vb, cmd.
  split; [exact E|]. split; [exact C|]. now rewrite T.
Qed.

(** X14.  With the quad mesh as [setupQuadMesh] builds it, the first
    post-processing pass creates one buffer, the quad's vertex buffer of 192
    bytes, draws exactly 6 vertices and submits once. *)
Theorem quadThenPostProcessing_draws_six (defaultUV : number * number)
    (defaultNormal : Vector3) (rd : WebGPURenderer)
    (device context depthView pipeline frameTexture sampler : handle) (w : World) :
  exists w' d vb,
    quadThenPostProcessing defaultUV defaultNormal rd
      device context depthView pipeline frameTexture sampler w = Returned tt w' /\
    calls w' = calls w ++ d /\
    buffersCreated d = [(192%nat, vb)] /\
    drawCounts d = [6] /\
    length (bindGroupsSet d) = 1%nat /\
    length (submissions d) = 1%nat.
Proof.
  unfold quadThenPostProcessing. unfold bind at 1.
  destruct (setupQuadMesh_quad defaultUV defaultNormal w)
    as (quad & w1 & E1 & V1 & B1 & C1).
  rewrite E1.
  destruct (renderPostProcessing_full (withQuadMesh quad rd) device context depthView
              pipeline frameTexture sampler w1)
    as (w' & enc & tex & v & pass & tv & layout & bg & vb & cmd & E & C & _).
  cbn [quadMesh withQuadMesh] in C.
  assert (Hlen : length (vertices (meshes w1 quad)) = 48%nat).
  { rewrite V1. apply length_flat_map_flatten. }
  assert (Hvb : vertexBufferCalls device (meshes w1 quad) vb =
                [ CreateBuffer device 192
                    (Z.lor GPUBufferUsage_VERTEX GPUBufferUsage_COPY_DST) vb;
                  WriteBuffer device vb 0 (vertices (meshes w1 quad)) ]).
  { unfold vertexBufferCalls. rewrite B1, Hlen. reflexivity. }
  assert (Hcount : vertexCountOf (meshes w1 quad) = 6).
  { unfold vertexCountOf. rewrite Hlen. exact (js_div_eight 6). }
  rewrite Hvb, Hcount, C1 in C.
  exists w'. eexists. exists vb. split; [exact E|]. split; [exact C|].
  repeat split; reflexivity.
Qed.

(** ** Construction and set-up of the renderer *)

Ltac run_host :=
  cbn [sbind sret sthrow hostFresh hostEmit readCanvasSize writeCanvasSize
       onHost getThis setThis liftGpu fst snd
       hostNext hostLog hostMeshes canvasSize
       createTexture createSampler createShaderModule createRenderPipeline
       createView bind ret fresh emit nextId calls meshes map app].

Lemma setupDepthView_effect (dev : handle) (rd : WebGPURenderer) (h : Host) :
  setupDepthView dev (rd, h) =
    Ok (S (hostNext h))
       (rd, {| hostNext := S (S (hostNext h));
               hostLog := hostLog h ++
                 [ CreateTexture dev
                     (fst (canvasSize h (canvas (renderingCanvas rd))))
                     (snd (canvasSize h (canvas (renderingCanvas rd))))
                     depth24plus GPUTextureUsage_RENDER_ATTACHMENT (hostNext h);
                   Gpu (CreateView (hostNext h) (S (hostNext h))) ];
               hostMeshes := hostMeshes h;
               canvasSize := canvasSize h |}).
Proof.
  unfold setupDepthView, setupDepthTexture, getCanvas. run_host.
  now rewrite <- app_assoc.
Qed.

Lemma resize_effect (pf : Platform) (dev : handle) (rd : WebGPURenderer) (h : Host) :
  exists h',
    resize pf dev (rd, h) = Ok tt (set_depthView (Some (S (hostNext h))) rd, h') /\
    hostNext h' = S (S (hostNext h)) /\
    hostLog h' = hostLog h ++
      [ CanvasResize (canvas (renderingCanvas rd));
        CanvasResize (canvas (postProcessingRenderingCanvas rd));
        CreateTexture dev
          (fst (resizedSize pf (canvas (renderingCanvas rd))))
          (snd (resizedSize pf (canvas (renderingCanvas rd))))
          depth24plus GPUTextureUsage_RENDER_ATTACHMENT (hostNext h);
        Gpu (CreateView (hostNext h) (S (hostNext h))) ] /\
    hostMeshes h' = hostMeshes h /\
    canvasSize h' (canvas (renderingCanvas rd)) =
      resizedSize pf (canvas (renderingCanvas rd)) /\
    canvasSize h' (canvas (postProcessingRenderingCanvas rd)) =
      resizedSize pf (canvas (postProcessingRenderingCanvas rd)) /\
    (forall cv, cv <> canvas (renderingCanvas rd) ->
                cv <> canvas (postProcessingRenderingCanvas rd) ->
                canvasSize h' cv = canvasSize h cv).
Proof.
  unfold resize, RenderingCanvas_resize. run_host.
  set (h2 := {| hostNext := hostNext h; hostLog := _; hostMeshes := _; canvasSize := _ |}).
  unfold sbind at 1. rewrite (setupDepthView_effect dev rd h2). run_host.
  eexists. split; [reflexivity|]. subst h2.
  cbn [fst snd hostNext hostLog hostMeshes canvasSize].
  assert (Hsize : (if Nat.eqb (canvas (renderingCanvas rd))
                        (canvas (postProcessingRenderingCanvas rd))
                   then resizedSize pf (canvas (postProcessingRenderingCanvas rd))
                   else if Nat.eqb (canvas (renderingCanvas rd)) (canvas (renderingCanvas rd))
                        then resizedSize pf (canvas (renderingCanvas rd))
                        else canvasSize h (canvas (renderingCanvas rd)))
                  = resizedSize pf (canvas (renderingCanvas rd))).
  { destruct (Nat.eqb (canvas (renderingCanvas rd))
                (canvas (postProcessingRenderingCanvas rd))) eqn:Eq.
    - apply Nat.eqb_eq in Eq. now rewrite Eq.
    - now rewrite Nat.eqb_refl. }
  rewrite Hsize, Nat.eqb_refl.
  split; [reflexivity|].
  split; [repeat rewrite <- app_assoc; reflexivity|].
  split; [reflexivity|]. split; [reflexivity|]. split; [reflexivity|].
  intros cv H1 H2. apply Nat.eqb_neq in H1, H2. now rewrite H1, H2.
Qed.

(** X15.  [resize] asks both canvases to resize, then rebuilds the depth
    view from a new depth texture (format depth24plus, usage
    RENDER_ATTACHMENT) that has exactly the size the primary canvas has after
    its resize; nothing else of the renderer changes, so a renderer that had a
    device and a context is Ready afterwards, and no mesh is touched. *)
Theorem resize_rebuilds_depth_view (pf : Platform) (dev : handle) (rd : WebGPURenderer)
    (h : Host) :
  exists rd' h' tex dv,
    resize pf dev (rd, h) = Ok tt (rd', h') /\
    hostLog h' = hostLog h ++
      [ CanvasResize (canvas (renderingCanvas rd));
        CanvasResize (canvas (postProcessingRenderingCanvas rd));
        CreateTexture dev
          (fst (canvasSize h' (canvas (renderingCanvas rd))))
          (snd (canvasSize h' (canvas (renderingCanvas rd))))
          depth24plus GPUTextureUsage_RENDER_ATTACHMENT tex;
        Gpu (CreateView tex dv) ] /\
    canvasSize h' (canvas (renderingCanvas rd)) =
      resizedSize pf (canvas (renderingCanvas rd)) /\
    canvasSize h' (canvas (postProcessingRenderingCanvas rd)) =
      resizedSize pf (canvas (postProcessingRenderingCanvas rd)) /\
    depthView rd' = Some dv /\
    device rd' = device rd /\ context rd' = context rd /\
    postProcessingContext rd' = postProcessingContext rd /\
    quadMesh rd' = quadMesh rd /\
    isReady rd' = match device rd, context rd with Some _, Some _ => true | _, _ => false end /\
    hostMeshes h' = hostMeshes h.
Proof.
  destruct (resize_effect pf dev rd h) as (h' & E & N & L & Ms & S1 & S2 & _).
  exists (set_depthView (Some (S (hostNext h))) rd), h', (hostNext h), (S (hostNext h)).
  split; [exact E|]. split; [now rewrite S1|].
  split; [exact S1|]. split; [exact S2|].
  cbn [set_depthView depthView device context postProcessingContext quadMesh].
  do 5 (split; [reflexivity|]).
  split; [|exact Ms].
  unfold isReady. cbn [set_depthView depthView device context].
  destruct (device rd), (context rd); reflexivity.
Qed.

Lemma setupContext_effect (pf : Platform) (dev cv : handle) (h : Host) :
  setupContext pf dev cv h =
    match webgpuContext pf cv with
    | None =>
        Err "Can't get context"
          {| hostNext := hostNext h; hostLog := hostLog h ++ [GetContext cv];
             hostMeshes := hostMeshes h; canvasSize := canvasSize h |}
    | Some ctx =>
        Ok ctx
          {| hostNext := hostNext h;
             hostLog := hostLog h ++ [GetContext cv; Configure ctx (getContextConfig pf dev)];
             hostMeshes := hostMeshes h; canvasSize := canvasSize h |}
    end.
Proof.
  unfold setupContext. run_host. destruct (webgpuContext pf cv); run_host.
  - now rewrite <- app_assoc.
  - reflexivity.
Qed.

Lemma setupPostProcessingPipeline_effect (pf : Platform) (dev : handle)
    (rd : WebGPURenderer) (h : Host) :
  setupPostProcessingPipeline pf dev (rd, h) =
    Ok (S (S (hostNext h)))
       (rd, {| hostNext := S (S (S (hostNext h)));
               hostLog := hostLog h ++
                 [ CreateShaderModule dev vertexShader (hostNext h);
                   CreateShaderModule dev fragmentShader (S (hostNext h));
                   CreateRenderPipeline dev
                     (postProcessingPipelineDescriptor pf rd (hostNext h) (S (hostNext h)))
                     (S (S (hostNext h))) ];
               hostMeshes := hostMeshes h;
               canvasSize := canvasSize h |}).
Proof.
  unfold setupPostProcessingPipeline. run_host. now rewrite <- !app_assoc.
Qed.

Lemma setupQuadMesh_state (defaultUV : number * number) (defaultNormal : Vector3) (w : World) :
  exists w',
    setupQuadMesh defaultUV defaultNormal w = Returned (nextId w) w' /\
    nextId w' = S (nextId w) /\
    calls w' = calls w /\
    length (vertices (meshes w' (nextId w))) = 48%nat /\
    vertexBuffer (meshes w' (nextId w)) = None /\
    (forall m, m <> nextId w -> meshes w' m = meshes w m).
Proof.
  unfold setupQuadMesh, WebGPUMesh_new.
  set (vs := [Vertex_new _ _ _; _; _; _; _; _]).
  run_monad.
  set (w1 := {| nextId := S (nextId w); calls := calls w; meshes := _ |}).
  destruct (addVertex_frame (nextId w) vs w1) as (w2 & E & T & F & C & N).
  unfold bind. rewrite E. exists w2. split; [reflexivity|].
  rewrite T, C, N. subst w1. cbn [meshes calls nextId]. rewrite Nat.eqb_refl.
  cbn [vertices vertexBuffer app].
  split; [reflexivity|]. split; [reflexivity|].
  split; [apply (length_flat_map_flatten vs)|]. split; [reflexivity|].
  intros m Hm. rewrite (F m Hm). cbn [meshes].
  apply Nat.eqb_neq in Hm. now rewrite Hm.
Qed.

Lemma liftGpu_setupQuadMesh (defaultUV : number * number) (defaultNormal : Vector3)
    (h : Host) :
  exists h',
    liftGpu (setupQuadMesh defaultUV defaultNormal) h = Ok (hostNext h) h' /\
    hostNext h' = S (hostNext h) /\
    hostLog h' = hostLog h /\
    canvasSize h' = canvasSize h /\
    length (vertices (hostMeshes h' (hostNext h))) = 48%nat /\
    vertexBuffer (hostMeshes h' (hostNext h)) = None /\
    (forall m, m <> hostNext h -> hostMeshes h' m = hostMeshes h m).
Proof.
  unfold liftGpu.
  destruct (setupQuadMesh_state defaultUV defaultNormal
              {| nextId := hostNext h; calls := []; meshes := hostMeshes h |})
    as (w' & E & N & C & L & B & F).
  cbn [nextId calls meshes] in *. rewrite E. eexists. split; [reflexivity|].
  cbn [hostNext hostLog hostMeshes canvasSize]. rewrite C. cbn [map]. rewrite app_nil_r.
  auto 10.
Qed.

(** [finalize] when both canvases give a context. *)
Lemma finalize_success (pf : Platform) (defaultUV : number * number)
    (defaultNormal : Vector3) (dev : handle) (rd : WebGPURenderer) (h : Host)
    (ctx pctx : handle) :
  webgpuContext pf (canvas (renderingCanvas rd)) = Some ctx ->
  webgpuContext pf (canvas (postProcessingRenderingCanvas rd)) = Some pctx ->
  exists rd' h' vm fm pipeline tex0 dv0 quad smp tex dv,
    finalize pf defaultUV defaultNormal dev (rd, h) = Ok tt (rd', h') /\
    hostLog h' = hostLog h ++
      [ GetContext (canvas (renderingCanvas rd));
        Configure ctx (getContextConfig pf dev);
        GetContext (canvas (postProcessingRenderingCanvas rd));
        Configure pctx (getContextConfig pf dev);
        CreateShaderModule dev vertexShader vm;
        CreateShaderModule dev fragmentShader fm;
        CreateRenderPipeline dev (postProcessingPipelineDescriptor pf rd vm fm) pipeline;
        CreateTexture dev
          (fst (canvasSize h (canvas (renderingCanvas rd))))
          (snd (canvasSize h (canvas (renderingCanvas rd))))
          depth24plus GPUTextureUsage_RENDER_ATTACHMENT tex0;
        Gpu (CreateView tex0 dv0);
        CreateSampler dev filter_linear filter_linear smp;
        CanvasResize (canvas (renderingCanvas rd));
        CanvasResize (canvas (postProcessingRenderingCanvas rd));
        CreateTexture dev
          (fst (resizedSize pf (canvas (renderingCanvas rd))))
          (snd (resizedSize pf (canvas (renderingCanvas rd))))
          depth24plus GPUTextureUsage_RENDER_ATTACHMENT tex;
        Gpu (CreateView tex dv);
        AddEventListener "resize" (ResizeWith dev) ] /\
    rd' = {| usePostProcessing := usePostProcessing rd;
             renderingCanvas := renderingCanvas rd;
             postProcessingRenderingCanvas := postProcessingRenderingCanvas rd;
             gpu := gpu rd;
             adapter := adapter rd;
             device := Some dev;
             context := Some ctx;
             postProcessingContext := Some pctx;
             postProcessingPipeline := Some pipeline;
             depthView := Some dv;
             quadMesh := quad;
             sampler := Some smp;
             primitiveTopology := primitiveTopology rd |} /\
    isReady rd' = true /\
    dv <> dv0 /\
    length (vertices (hostMeshes h' quad)) = 48%nat /\
    vertexBuffer (hostMeshes h' quad) = None.
Proof.
  intros H1 H2. unfold finalize. run_host.
  unfold sbind at 1. unfold onHost at 1.
  change (renderingCanvas (set_device (Some dev) rd)) with (renderingCanvas rd).
  change (postProcessingRenderingCanvas (set_device (Some dev) rd))
    with (postProcessingRenderingCanvas rd).
  unfold getCanvas. cbn [fst snd].
  rewrite setupContext_effect, H1. run_host.
  unfold sbind at 1. unfold onHost at 1. cbn [fst snd].
  rewrite setupContext_effect, H2. run_host.
  unfold sbind at 1. rewrite setupPostProcessingPipeline_effect. run_host.
  unfold sbind at 1. rewrite setupDepthView_effect. run_host.
  set (h4 := {| hostNext := _; hostLog := _; hostMeshes := _; canvasSize := _ |}).
  destruct (liftGpu_setupQuadMesh defaultUV defaultNormal h4)
    as (h5 & E5 & N5 & L5 & S5 & Len5 & B5 & F5).
  unfold sbind at 1. unfold onHost at 1. cbn [fst snd].
  rewrite E5. run_host. unfold setupSampler. run_host.
  set (rd6 := set_sampler _ _).
  set (h6 := {| hostNext := _; hostLog := _; hostMeshes := _; canvasSize := _ |}).
  unfold sbind at 1.
  destruct (resize_effect pf dev rd6 h6) as (h7 & E7 & N7 & L7 & Ms7 & _).
  rewrite E7. run_host.
  do 11 eexists. split; [reflexivity|].
  cbn [hostLog hostMeshes].
  subst rd6 h6 h4.
  cbn [hostNext hostLog hostMeshes canvasSize set_sampler withQuadMesh set_depthView
       set_postProcessingPipeline set_postProcessingContext set_context set_device
       renderingCanvas postProcessingRenderingCanvas canvas] in *.
  split.
  { rewrite L7, L5, S5. cbn [canvasSize]. repeat rewrite <- app_assoc. cbn [app].
    reflexivity. }
  split; [reflexivity|]. split; [reflexivity|].
  split; [rewrite N5; cbn [hostNext]; lia|].
  rewrite Ms7. cbn [hostMeshes]. split; assumption.
Qed.



(** [finalize] when a canvas gives no context. *)
Lemma finalize_failure (pf : Platform) (defaultUV : number * number)
    (defaultNormal : Vector3) (dev : handle) (rd : WebGPURenderer) (h : Host) :
  webgpuContext pf (canvas (renderingCanvas rd)) = None \/
  webgpuContext pf (canvas (postProcessingRenderingCanvas rd)) = None ->
  depthView rd = None ->
  exists rd' h' d,
    finalize pf defaultUV defaultNormal dev (rd, h) = Err "Can't get context" (rd', h') /\
    device rd' = Some dev /\
    depthView rd' = None /\
    isReady rd' = false /\
    (forall sc actors camera w, render sc rd' actors camera w = Returned tt w) /\
    (forall w, getDevice rd' w = Returned dev w) /\
    hostLog h' = hostLog h ++ d /\
    Forall (fun c => match c with GetContext _ | Configure _ _ => True | _ => False end) d /\
    hostMeshes h' = hostMeshes h /\
    hostNext h' = hostNext h.
Proof.
  intros Hnone Hdv. unfold finalize. run_host.
  unfold sbind at 1. unfold onHost at 1.
  change (renderingCanvas (set_device (Some dev) rd)) with (renderingCanvas rd).
  change (postProcessingRenderingCanvas (set_device (Some dev) rd))
    with (postProcessingRenderingCanvas rd).
  unfold getCanvas. cbn [fst snd].
  rewrite setupContext_effect.
  destruct (webgpuContext pf (canvas (renderingCanvas rd))) as [ctx|] eqn:E1.
  - destruct Hnone as [Hnone|Hnone]; [discriminate|].
    run_host. unfold sbind at 1. unfold onHost at 1. cbn [fst snd].
    rewrite setupContext_effect, Hnone.
    do 3 eexists. split; [reflexivity|].
    cbn [set_context set_device device depthView context hostLog hostMeshes hostNext].
    split; [reflexivity|]. split; [exact Hdv|].
    split; [unfold isReady; cbn [set_context set_device device depthView context];
            now rewrite Hdv|].
    split; [intros; unfold render; cbn [set_context set_device device depthView context];
            now rewrite Hdv|].
    split; [reflexivity|].
    split; [rewrite <- app_assoc; reflexivity|].
    split; [repeat constructor|]. split; reflexivity.
  - do 3 eexists. split; [reflexivity|].
    cbn [set_device device depthView context hostLog hostMeshes hostNext].
    split; [reflexivity|]. split; [exact Hdv|].
    split; [unfold isReady; cbn [set_device device depthView context];
            destruct (context rd); now rewrite ?Hdv|].
    split; [intros; unfold render; cbn [set_device device depthView context];
            destruct (context rd); now rewrite ?Hdv|].
    split; [reflexivity|].
    split; [reflexivity|].
    split; [repeat constructor|]. split; reflexivity.
Qed.

(** X17.  When a canvas gives no WebGPU context, [finalize(device)] throws
    "Can't get context".  The device is already stored by then, so [getDevice]
    returns it, but the depth view is not: a renderer that had none stays not
    Ready and its [render] remains a no-op.  Up to the failure only contexts
    were asked for and configured: no pipeline, texture, sampler or listener
    was created and no mesh was touched. *)
Theorem finalize_without_context (pf : Platform) (defaultUV : number * number)
    (defaultNormal : Vector3) (dev : handle) (rd : WebGPURenderer) (h : Host) :
  webgpuContext pf (canvas (renderingCanvas rd)) = None \/
  webgpuContext pf (canvas (postProcessingRenderingCanvas rd)) = None ->
  depthView rd = None ->
  exists rd' h' d,
    finalize pf defaultUV defaultNormal dev (rd, h) = Err "Can't get context" (rd', h') /\
    device rd' = Some dev /\
    depthView rd' = None /\
    isReady rd' = false /\
    (forall sc actors camera w, render sc rd' actors camera w = Returned tt w) /\
    (forall w, getDevice rd' w = Returned dev w) /\
    hostLog h' = hostLog h ++ d /\
    Forall (fun c => match c with GetContext _ | Configure _ _ => True | _ => False end) d /\
    hostMeshes h' = hostMeshes h /\
    hostNext h' = hostNext h.
Proof.
  intros Hnone Hdv.
  destruct (finalize_failure pf defaultUV defaultNormal dev rd h Hnone Hdv)
    as (rd' & h' & d & Hall).
  exists rd', h', d.
  exact Hall.
Qed.

Lemma finalize_without_context_witness :
  (webgpuContext contextlessPlatform (canvas (renderingCanvas uninitializedRenderer))
     = None \/
   webgpuContext contextlessPlatform
     (canvas (postProcessingRenderingCanvas uninitializedRenderer)) = None) /\
  (depthView uninitializedRenderer = None) /\
  exists rd' h' d,
    finalize contextlessPlatform (0, 0) (mkVector3 0 0 1) 5%nat
      (uninitializedRenderer, sampleHost) = Err "Can't get context" (rd', h') /\
    device rd' = Some 5%nat /\
    depthView rd' = None /\
    isReady rd' = false /\
    (forall sc actors camera w, render sc rd' actors camera w = Returned tt w) /\
    (forall w, getDevice rd' w = Returned 5%nat w) /\
    hostLog h' = hostLog sampleHost ++ d /\
    Forall (fun c => match c with GetContext _ | Configure _ _ => True | _ => False end) d /\
    hostMeshes h' = hostMeshes sampleHost /\
    hostNext h' = hostNext sampleHost.
Proof.
  split; [left; reflexivity|].
  split; [reflexivity|].
  apply (@finalize_without_context contextlessPlatform (0, 0) (mkVector3 0 0 1) 5%nat
           uninitializedRenderer sampleHost);
    [left; reflexivity|reflexivity].
Defined.

(** X18.  Construction.  Without [navigator.gpu] the constructor throws
    "Can't get the GPU", after the two canvases and the quad mesh were made and
    before any adapter is requested.  With it, the constructor returns a
    renderer that is not Ready (no adapter, device, context, pipeline, depth
    view or sampler), whose primary canvas is displayed, whose quad mesh holds
    48 numbers, whose topology is "triangle-list", and for which exactly one
    adapter was requested; until set-up completes [render] is a no-op and
    [getDevice] throws. *)
Theorem constructor_outcome (pf : Platform) (defaultUV : number * number)
    (defaultNormal : Vector3) (h : Host) :
  match navigator_gpu pf with
  | None =>
      exists h' c1 c2,
        WebGPURenderer_new pf defaultUV defaultNormal h = Err "Can't get the GPU" h' /\
        hostLog h' = hostLog h ++ [NewCanvas c1; NewCanvas c2]
  | Some g =>
      exists rd h',
        WebGPURenderer_new pf defaultUV defaultNormal h = Ok rd h' /\
        hostLog h' = hostLog h ++
          [ NewCanvas (canvas (renderingCanvas rd));
            NewCanvas (canvas (postProcessingRenderingCanvas rd));
            RequestAdapter g true ] /\
        canvas (renderingCanvas rd) <> canvas (postProcessingRenderingCanvas rd) /\
        visible (renderingCanvas rd) = true /\
        visible (postProcessingRenderingCanvas rd) = newCanvasVisible pf /\
        gpu rd = g /\
        usePostProcessing rd = false /\
        adapter rd = None /\ device rd = None /\ context rd = None /\
        postProcessingContext rd = None /\ postProcessingPipeline rd = None /\
        depthView rd = None /\ sampler rd = None /\
        primitiveTopology rd = triangle_list /\
        length (vertices (hostMeshes h' (quadMesh rd))) = 48%nat /\
        vertexBuffer (hostMeshes h' (quadMesh rd)) = None /\
        isReady rd = false /\
        (forall sc actors camera w, render sc rd actors camera w = Returned tt w) /\
        (forall w, getDevice rd w = Thrown "Error: Device not found" w)
  end.
Proof.
  unfold WebGPURenderer_new, RenderingCanvas_new, setupGPU, setupAdapter_request.
  destruct (navigator_gpu pf) as [g|]; run_host.
  - set (h2 := {| hostNext := _; hostLog := _; hostMeshes := _; canvasSize := _ |}).
    destruct (liftGpu_setupQuadMesh defaultUV defaultNormal h2)
      as (h3 & E3 & N3 & L3 & S3 & Len3 & B3 & F3).
    unfold sbind at 1. rewrite E3. run_host.
    do 2 eexists. split; [reflexivity|].
    cbn [hostLog hostMeshes renderingCanvas postProcessingRenderingCanvas canvas visible
         displayCanvas gpu usePostProcessing adapter device context postProcessingContext
         postProcessingPipeline depthView sampler primitiveTopology quadMesh].
    split; [rewrite L3; subst h2; cbn [hostLog]; now rewrite <- !app_assoc|].
    split; [lia|].
    do 12 (split; [reflexivity|]).
    subst h2. cbn [hostNext] in *.
    split; [exact Len3|]. split; [exact B3|].
    repeat split.
  - set (h2 := {| hostNext := _; hostLog := _; hostMeshes := _; canvasSize := _ |}).
    destruct (liftGpu_setupQuadMesh defaultUV defaultNormal h2)
      as (h3 & E3 & N3 & L3 & S3 & Len3 & B3 & F3).
    unfold sbind at 1. rewrite E3. run_host.
    exists h3, (hostNext h), (S (hostNext h)). split; [reflexivity|].
    rewrite L3. subst h2. cbn [hostLog]. now rewrite <- !app_assoc.
Qed.

Lemma finalize_ready_iff (pf : Platform) (defaultUV : number * number)
    (defaultNormal : Vector3) (dev : handle) (rd : WebGPURenderer) (h : Host) :
  depthView rd = None ->
  isReady (fst (stateOf (finalize pf defaultUV defaultNormal dev (rd, h)))) =
    isSome (webgpuContext pf (canvas (renderingCanvas rd))) &&
    isSome (webgpuContext pf (canvas (postProcessingRenderingCanvas rd))) /\
  succeeded (finalize pf defaultUV defaultNormal dev (rd, h)) =
    isReady (fst (stateOf (finalize pf defaultUV defaultNormal dev (rd, h)))).
Proof.
  intros Hdv.
  destruct (webgpuContext pf (canvas (renderingCanvas rd))) as [ctx|] eqn:E1;
    [destruct (webgpuContext pf (canvas (postProcessingRenderingCanvas rd)))
       as [pctx|] eqn:E2|].
  - destruct (finalize_success pf defaultUV defaultNormal dev rd h E1 E2)
      as (rd' & h' & vm & fm & pipeline & tex0 & dv0 & quad & smp & tex & dv
          & E & _ & _ & Hr & _).
    rewrite E. cbn [stateOf succeeded fst isSome andb]. now rewrite Hr.
  - destruct (finalize_failure pf defaultUV defaultNormal dev rd h
                (or_intror E2) Hdv)
      as (rd' & h' & d & E & _ & _ & Hr & _).
    rewrite E. cbn [stateOf succeeded fst isSome andb]. now rewrite Hr.
  - destruct (finalize_failure pf defaultUV defaultNormal dev rd h
                (or_introl E1) Hdv)
      as (rd' & h' & d & E & _ & _ & Hr & _).
    rewrite E. cbn [stateOf succeeded fst isSome andb]. now rewrite Hr.
Qed.

(** A renderer that is not Ready renders nothing. *)
Lemma render_not_ready (sc : Scene) (rd : WebGPURenderer)
    (actors : list ref) (camera : ref) (w : World) :
  isReady rd = false -> render sc rd actors camera w = Returned tt w.
Proof.
  unfold isReady, render.
  destruct (device rd), (context rd), (depthView rd); intros Hr;
    try discriminate; reflexivity.
Qed.

(** X19.  Readiness is all or nothing.  For a renderer without a depth view
    (as the constructor leaves it), running the set-up to its end leaves it
    Ready exactly when the adapter was granted, the device was granted and
    both canvases gave a context; in every other case a step threw, the
    renderer is not Ready and [render] stays a no-op. *)
Theorem initialise_ready_iff (pf : Platform) (defaultUV : number * number)
    (defaultNormal : Vector3) (rd : WebGPURenderer) (h : Host) :
  depthView rd = None ->
  isReady (fst (initialise pf defaultUV defaultNormal rd h)) =
    isSome (adapterGranted pf) && isSome (deviceGranted pf) &&
    isSome (webgpuContext pf (canvas (renderingCanvas rd))) &&
    isSome (webgpuContext pf (canvas (postProcessingRenderingCanvas rd))) /\
  (isReady (fst (initialise pf defaultUV defaultNormal rd h)) = false ->
   forall sc actors camera w,
     render sc (fst (initialise pf defaultUV defaultNormal rd h)) actors camera w
       = Returned tt w).
Proof.
  intros Hdv. split.
  - unfold initialise, setup_adapterSettled, setupAdapter_resume. run_host.
    destruct (adapterGranted pf) as [adp|]; run_host.
    + unfold setup_deviceSettled, setupDevice_request, setupDevice_resume. run_host.
      destruct (deviceGranted pf) as [dev|]; run_host.
      * set (h1 := {| hostNext := _; hostLog := _; hostMeshes := _; canvasSize := _ |}).
        destruct (finalize_ready_iff pf defaultUV defaultNormal dev
                    (set_adapter (Some adp) rd) h1 Hdv) as [Hr _].
        rewrite Hr. reflexivity.
      * cbn [stateOf fst isSome andb]. unfold isReady.
        cbn [set_adapter device context depthView]. rewrite Hdv.
        now destruct (device rd), (context rd).
    + cbn [fst isSome andb]. unfold isReady. rewrite Hdv.
      now destruct (device rd), (context rd).
  - intros Hr sc actors camera w.
    pose proof (render_not_ready sc
                  (fst (initialise pf defaultUV defaultNormal rd h)) actors camera w Hr)
      as Hn. exact Hn.
Qed.

Lemma initialise_ready_iff_witness :
  depthView uninitializedRenderer = None /\
  isReady (fst (initialise samplePlatform (0, 0) (mkVector3 0 0 1)
                  uninitializedRenderer sampleHost)) =
    isSome (adapterGranted samplePlatform) && isSome (deviceGranted samplePlatform) &&
    isSome (webgpuContext samplePlatform (canvas (renderingCanvas uninitializedRenderer))) &&
    isSome (webgpuContext samplePlatform
              (canvas (postProcessingRenderingCanvas uninitializedRenderer))) /\
  (isReady (fst (initialise samplePlatform (0, 0) (mkVector3 0 0 1)
                   uninitializedRenderer sampleHost)) = false ->
   forall sc actors camera w,
     render sc (fst (initialise samplePlatform (0, 0) (mkVector3 0 0 1)
                       uninitializedRenderer sampleHost)) actors camera w
       = Returned tt w).
Proof.
  split; [reflexivity|].
  apply (@initialise_ready_iff samplePlatform (0, 0) (mkVector3 0 0 1)
           uninitializedRenderer sampleHost).
  reflexivity.
Defined.

(** X20.  The post-processing pipeline reads vertices the way [addVertex]
    writes them: its single vertex buffer layout steps per vertex with a
    stride equal to the bytes of one flattened vertex, and its three
    attributes, at shader locations 0, 1 and 2, tile that stride without gap
    or overlap, with the byte sizes and offsets of position, uv and normal.
    Its color target has the format the contexts are configured with, its
    depth format is the one of the depth textures and its topology is the
    renderer's. *)
Theorem postProcessingPipeline_layout (pf : Platform) (dev : handle) (rd : WebGPURenderer)
    (h : Host) (vert : Vertex) :
  exists vm fm p h' desc layout0 a0 a1 a2,
    setupPostProcessingPipeline pf dev (rd, h) = Ok p (rd, h') /\
    hostLog h' = hostLog h ++
      [ CreateShaderModule dev vertexShader vm;
        CreateShaderModule dev fragmentShader fm;
        CreateRenderPipeline dev desc p ] /\
    vertex_module (vertex desc) = vm /\ fragment_module (fragment desc) = fm /\
    buffers (vertex desc) = [layout0] /\
    stepMode layout0 = step_vertex /\
    attributes layout0 = [a0; a1; a2] /\
    map shaderLocation [a0; a1; a2] = [0; 1; 2]%nat /\
    formatBytes (format a0) = (4 * length (getPosition vert))%nat /\
    formatBytes (format a1) = (4 * length (getUV vert))%nat /\
    formatBytes (format a2) = (4 * length (getNormal vert))%nat /\
    offset a0 = 0%nat /\
    offset a1 = (offset a0 + formatBytes (format a0))%nat /\
    offset a2 = (offset a1 + formatBytes (format a1))%nat /\
    arrayStride layout0 = (offset a2 + formatBytes (format a2))%nat /\
    arrayStride layout0 = (4 * length (flatten vert))%nat /\
    targets (fragment desc) = [config_format (getContextConfig pf dev)] /\
    depth_format (depthStencil desc) = depth24plus /\
    topology desc = primitiveTopology rd.
Proof.
  rewrite setupPostProcessingPipeline_effect.
  do 9 eexists. split; [reflexivity|]. cbn [hostLog].
  split; [reflexivity|].
  unfold postProcessingPipelineDescriptor.
  cbn [vertex fragment buffers vertex_module fragment_module].
  do 3 (split; [reflexivity|]).
  cbn [stepMode attributes]. do 2 (split; [reflexivity|]).
  repeat split.
Qed.

(** ** Consequences at the level of a frame *)

(** X21.  What the missing invalidation means for a draw: when a mesh with
    a cached buffer is given new content by [setVertices], the next
    [renderActor] creates no vertex buffer, binds the buffer cached for the
    old content, and draws the vertex count of the new content. *)
Theorem renderActor_after_setVertices (sc : Scene) (actor camera : ref)
    (passEncoder dev : handle) (vs : list number) (vb0 : handle) (w : World) :
  vertexBuffer (meshes w (getMesh sc actor)) = Some vb0 ->
  exists w1 w' d,
    setVertices (getMesh sc actor) vs w = Returned tt w1 /\
    renderActor sc actor camera passEncoder dev w1 = Returned tt w' /\
    calls w' = calls w ++ d /\
    In (SetVertexBuffer passEncoder 0 vb0) d /\
    drawCounts d = [js_div (inject_Z (Z.of_nat (length vs))) (3 + 2 + 3)] /\
    length (buffersCreated d) = 3%nat /\
    Forall (fun b => snd (fst b) = Z.lor GPUBufferUsage_UNIFORM GPUBufferUsage_COPY_DST)
      (buffersCreatedWith d).
Proof.
  intros Hc.
  destruct (setVertices_effect (getMesh sc actor) vs w) as (w1 & E1 & V1 & B1 & C1 & _).
  destruct (renderActor_full sc actor camera passEncoder dev w1)
    as (vb & w' & b1 & b2 & b3 & layout0 & bg & E & C & _ & _ & _ & Hvb).
  rewrite B1, Hc in Hvb. rewrite (Hvb vb0 eq_refl) in C.
  unfold vertexBufferCalls, vertexCountOf in C. rewrite B1, Hc, V1, C1 in C.
  cbn [app] in C.
  exists w1, w'. eexists. split; [exact E1|]. split; [exact E|]. split; [exact C|].
  split; [cbn [In]; auto 12|].
  split; [reflexivity|]. split; [reflexivity|]. repeat constructor.
Qed.

Lemma renderActor_after_setVertices_witness :
  vertexBuffer (meshes warmWorld (getMesh sampleScene 20)) = Some 500%nat /\
  exists w1 w' d,
    setVertices (getMesh sampleScene 20) [1; 2; 3] warmWorld = Returned tt w1 /\
    renderActor sampleScene 20 21 7 5 w1 = Returned tt w' /\
    calls w' = calls warmWorld ++ d /\
    In (SetVertexBuffer 7 0 500) d /\
    drawCounts d = [js_div (inject_Z (Z.of_nat (length [1; 2; 3]))) (3 + 2 + 3)] /\
    length (buffersCreated d) = 3%nat /\
    Forall (fun b => snd (fst b) = Z.lor GPUBufferUsage_UNIFORM GPUBufferUsage_COPY_DST)
      (buffersCreatedWith d).
Proof.
  split; [reflexivity|].
  apply (@renderActor_after_setVertices sampleScene 20 21 7 5 [1; 2; 3] 500 warmWorld).
  reflexivity.
Defined.





(** ** The fields of actors *)

Module ActorObjects.
Import ActorClass.

(** X24.  [setMesh] and [setMaterial] on an actor change that one field of
    that one actor: the getter then returns the value set, the actor's other
    fields and every other actor are as before, and the registry is
    unchanged. *)
Theorem setters_change_one_field (this other m mat : ref) (s : Program) :
  objects s this <> None ->
  other <> this ->
  getMesh this (setMesh this m s) = Some m /\
  getMaterial this (setMesh this m s) = getMaterial this s /\
  getTransform this (setMesh this m s) = getTransform this s /\
  getMaterial this (setMaterial this mat s) = Some mat /\
  getMesh this (setMaterial this mat s) = getMesh this s /\
  getTransform this (setMaterial this mat s) = getTransform this s /\
  objects (setMesh this m s) other = objects s other /\
  objects (setMaterial this mat s) other = objects s other /\
  getActors (setMesh this m s) = getActors s /\
  getActors (setMaterial this mat s) = getActors s.
Proof.
  intros Hex Hne.
  unfold getMesh, getMaterial, getTransform, setMesh, setMaterial, setField, getActors.
  cbn [objects actors]. rewrite Nat.eqb_refl.
  apply Nat.eqb_neq in Hne. rewrite Hne.
  destruct (objects s this) as [o|]; [|congruence].
  cbn. repeat split.
Qed.

Lemma setters_change_one_field_witness :
  objects (snd (constructor start)) 0 <> None /\
  1%nat <> 0%nat /\
  getMesh 0 (setMesh 0 77 (snd (constructor start))) = Some 77%nat /\
  getMaterial 0 (setMesh 0 77 (snd (constructor start)))
    = getMaterial 0 (snd (constructor start)) /\
  getTransform 0 (setMesh 0 77 (snd (constructor start)))
    = getTransform 0 (snd (constructor start)) /\
  getMaterial 0 (setMaterial 0 88 (snd (constructor start))) = Some 88%nat /\
  getMesh 0 (setMaterial 0 88 (snd (constructor start)))
    = getMesh 0 (snd (constructor start)) /\
  getTransform 0 (setMaterial 0 88 (snd (constructor start)))
    = getTransform 0 (snd (constructor start)) /\
  objects (setMesh 0 77 (snd (constructor start))) 1 = objects (snd (constructor start)) 1 /\
  objects (setMaterial 0 88 (snd (constructor start))) 1
    = objects (snd (constructor start)) 1 /\
  getActors (setMesh 0 77 (snd (constructor start))) = getActors (snd (constructor start)) /\
  getActors (setMaterial 0 88 (snd (constructor start)))
    = getActors (snd (constructor start)).
Proof.
  split; [discriminate|]. split; [discriminate|].
  apply (@setters_change_one_field 0 1 77 88 (snd (constructor start)));
    discriminate.
Defined.

Lemma exec_pristine (op : Op) (s : Program) :
  noSetter op = true -> pristine s ->
  (forall o, In o (actors s) -> exists k, o = (4 * k)%nat) ->
  (exists k, nextRef s = (4 * k)%nat) ->
  pristine (fst (exec op s)) /\
  (forall o, In o (actors (fst (exec op s))) -> exists k, o = (4 * k)%nat) /\
  (exists k, nextRef (fst (exec op s)) = (4 * k)%nat).
Proof.
  intros Hop Hp Hreg Hnext.
  destruct op; try discriminate; cbn [exec fst]; unfold update; auto.
  cbn [constructor]. cbn [fst].
  split; [|split].
  - intros o act. cbn [objects actors nextRef].
    destruct (Nat.eqb o (nextRef s)) eqn:Eo.
    + apply Nat.eqb_eq in Eo. subst o. intros H. injection H as <-.
      cbn [transform mesh material].
      repeat split; try reflexivity; [apply in_or_app; right; now left|lia].
    + intros H. destruct (Hp o act H) as (T & Me & Ma & I & L).
      repeat split; auto; [apply in_or_app; now left|lia].
  - cbn [actors]. intros o Ho. apply in_app_or in Ho. destruct Ho as [Ho|[<-|[]]].
    + now apply Hreg.
    + exact Hnext.
  - cbn [nextRef]. destruct Hnext as [k Hk]. exists (S k). lia.
Qed.

Lemma run_pristine (ops : list Op) :
  forall s : Program,
    forallb noSetter ops = true -> pristine s ->
    (forall o, In o (actors s) -> exists k, o = (4 * k)%nat) ->
    (exists k, nextRef s = (4 * k)%nat) ->
    pristine (fst (run ops s)) /\
    (forall o, In o (actors (fst (run ops s))) -> exists k, o = (4 * k)%nat).
Proof.
  induction ops as [|op ops IH]; intros s Hops Hp Hreg Hnext.
  - cbn. auto.
  - cbn [forallb] in Hops. apply andb_prop in Hops. destruct Hops as [Hop Hops].
    destruct (@exec_pristine op s Hop Hp Hreg Hnext) as (Hp1 & Hreg1 & Hnext1).
    cbn [run]. destruct (exec op s) as [s1 built1]. cbn [fst] in *.
    specialize (IH s1 Hops Hp1 Hreg1 Hnext1).
    destruct (run ops s1) as [s2 built2]. cbn [fst] in *. exact IH.
Qed.

(** X25.  Actors do not share what their constructor builds: after any
    sequence of operations from program start that uses no setter, two
    different actors have different meshes, different materials and different
    transforms, and no such object is itself an actor of the registry. *)
Theorem constructed_fields_not_shared (ops : list Op) (a1 a2 : ref) (o1 o2 : Actor) :
  forallb noSetter ops = true ->
  objects (fst (run ops start)) a1 = Some o1 ->
  objects (fst (run ops start)) a2 = Some o2 ->
  a1 <> a2 ->
  mesh o1 <> mesh o2 /\ material o1 <> material o2 /\ transform o1 <> transform o2 /\
  ~ In (mesh o1) (getActors (fst (run ops start))) /\
  ~ In (material o1) (getActors (fst (run ops start))) /\
  ~ In (transform o1) (getActors (fst (run ops start))).
Proof.
  intros Hops H1 H2 Hne.
  assert (Hstart : pristine start) by (intros o act H; discriminate).
  destruct (@run_pristine ops start Hops Hstart) as [Hp Hreg].
  { intros o []. }
  { exists 0%nat. reflexivity. }
  destruct (Hp a1 o1 H1) as (T1 & M1 & Ma1 & I1 & _).
  destruct (Hp a2 o2 H2) as (T2 & M2 & Ma2 & I2 & _).
  destruct (Hreg a1 I1) as [k1 K1].
  unfold getActors.
  repeat split; try lia;
    intros Hin; destruct (Hreg _ Hin) as [k Hk]; lia.
Qed.

Lemma constructed_fields_not_shared_witness :
  forallb noSetter [New; GetActors; New] = true /\
  objects (fst (run [New; GetActors; New] start)) 0
    = Some {| transform := 1; mesh := 2; material := 3 |} /\
  objects (fst (run [New; GetActors; New] start)) 4
    = Some {| transform := 5; mesh := 6; material := 7 |} /\
  0%nat <> 4%nat /\
  mesh {| transform := 1; mesh := 2; material := 3 |}
    <> mesh {| transform := 5; mesh := 6; material := 7 |} /\
  material {| transform := 1; mesh := 2; material := 3 |}
    <> material {| transform := 5; mesh := 6; material := 7 |} /\
  transform {| transform := 1; mesh := 2; material := 3 |}
    <> transform {| transform := 5; mesh := 6; material := 7 |} /\
  ~ In (mesh {| transform := 1; mesh := 2; material := 3 |})
       (getActors (fst (run [New; GetActors; New] start))) /\
  ~ In (material {| transform := 1; mesh := 2; material := 3 |})
       (getActors (fst (run [New; GetActors; New] start))) /\
  ~ In (transform {| transform := 1; mesh := 2; material := 3 |})
       (getActors (fst (run [New; GetActors; New] start))).
Proof.
  split; [reflexivity|]. split; [reflexivity|]. split; [reflexivity|].
  split; [discriminate|].
  apply (@constructed_fields_not_shared [New; GetActors; New] 0 4 _ _);
    [reflexivity|reflexivity|reflexivity|discriminate].
Defined.

End ActorObjects.

(** ** Reading a file *)

Module FileReaderProps.
Import FileReaderClass.

(** X26.  Over the life of one request, [readFile] calls the callback at
    most once: exactly once, with the response text, when the request ends
    with status 200, and never otherwise, so a failed request (404, no
    network) is reported to nobody.  The request itself is always a GET of the
    given path, opened then sent. *)
Theorem readFile_calls_back_once_on_success (path : string)
    (events : list XMLHttpRequest) (done : XMLHttpRequest) :
  lifecycle events done ->
  fst (readFile path events) = [Open "GET" path; Send] /\
  snd (readFile path events) =
    (if Nat.eqb (status done) 200 then [responseText done] else []).
Proof.
  intros (earlier & -> & Hearly & Hdone).
  split; [reflexivity|].
  unfold readFile. cbn [snd]. rewrite choose_app.
  assert (Hnone : choose onreadystatechange earlier = []).
  { induction Hearly as [|e l He _ IH]; [reflexivity|].
    cbn [choose]. unfold onreadystatechange at 1.
    assert (Nat.eqb (readyState e) 4 = false) as -> by (apply Nat.eqb_neq; lia).
    exact IH. }
  rewrite Hnone. cbn [app choose]. unfold onreadystatechange.
  rewrite Hdone. cbn [Nat.eqb andb].
  destruct (Nat.eqb (status done) 200); reflexivity.
Qed.

Lemma readFile_calls_back_once_on_success_witness :
  lifecycle [mkXHR 2 200 ""; mkXHR 3 200 "v 0"; mkXHR 4 200 "v 0 0 0"]
            (mkXHR 4 200 "v 0 0 0") /\
  fst (readFile "cube.obj" [mkXHR 2 200 ""; mkXHR 3 200 "v 0"; mkXHR 4 200 "v 0 0 0"])
    = [Open "GET" "cube.obj"; Send] /\
  snd (readFile "cube.obj" [mkXHR 2 200 ""; mkXHR 3 200 "v 0"; mkXHR 4 200 "v 0 0 0"])
    = (if Nat.eqb (status (mkXHR 4 200 "v 0 0 0")) 200
       then [responseText (mkXHR 4 200 "v 0 0 0")] else []).
Proof.
  assert (L : lifecycle [mkXHR 2 200 ""; mkXHR 3 200 "v 0"; mkXHR 4 200 "v 0 0 0"]
                        (mkXHR 4 200 "v 0 0 0")).
  { exists [mkXHR 2 200 ""; mkXHR 3 200 "v 0"]. split; [reflexivity|].
    split; [|reflexivity]. repeat constructor. }
  split; [exact L|].
  apply (readFile_calls_back_once_on_success "cube.obj" L).
Defined.

End FileReaderProps.
